(** * Mind Mate chatbot: retrieval ranking, confidence, context window, timers

    A shallow embedding of the Python sources

      - [backend/retriever.py]        (module [Retriever])
      - [backend/vector_store.py]     (module [Store], the method [search])
      - [backend/context_manager.py]  (module [Context])
      - [backend/metrics.py]          (module [Metrics])
      - [api/app.py]                  (module [App])

    followed by the properties of the specification that concern them.

    Modelling conventions.

    - Python [float] values (distances, scores, clock readings) are exact
      rationals [Q]; a literal such as [0.1] is the rational one tenth.
      Equality of scores is stated with Leibniz equality where the code
      builds the very term, and with [==] or [<=] on [Q] otherwise.
    - Python [str] is [string]; [lower] acts on the ASCII letters.
    - Python exceptions are the [Raise] results of the type [result];
      subscripting a list out of range, subscripting [None], reading a
      missing dictionary key and [max] of an empty sequence raise, as in
      Python.
    - Mutable objects ([ContextManager], [MetricsTracker]) are records that
      are threaded through the effect monad [Eff]; [time.time()] and
      [datetime.now()] read an oracle [clock] at an increasing position.
    - Of the loggers only the one of [backend.metrics] is recorded, at the
      level that [api/app.py] configures ([INFO]): its [debug] calls emit
      nothing and are left out.  The logging calls of the other modules
      only build a message; where building it can raise
      ([_vector_search]) that is modelled. *)

From Stdlib Require Import QArith Qround Qminmax ZArith Lia Lqa.
From Stdlib Require Import Sorting.Sorted Sorting.Permutation Ascii.
From stdpp Require Import base option list gmap strings pretty.

(** ** Python primitives *)

Module Py.

(** The exceptions that the modelled code can meet. *)
Inductive exn : Type :=
| IndexError
| TypeError
| KeyError (key : string)
| ValueError
| StoreError (message : string)
| HTTPException (status_code : Z) (detail : string).

(** [str(e)] *)
Definition exn_str (e : exn) : string :=
  match e with
  | IndexError => "list index out of range"
  | TypeError => "'NoneType' object is not subscriptable"
  | KeyError key => "'" +:+ key +:+ "'"
  | ValueError => "max() arg is an empty sequence"
  | StoreError message => message
  | HTTPException status_code detail => pretty status_code +:+ ": " +:+ detail
  end.

Inductive result (A : Type) : Type :=
| Ok (value : A)
| Raise (e : exn).
Global Arguments Ok {A} value.
Global Arguments Raise {A} e.

Global Instance result_ret : MRet result := fun A x => Ok x.
Global Instance result_bind : MBind result := fun A B f m =>
  match m with
  | Ok x => f x
  | Raise e => Raise e
  end.

Definition returns {A} (m : result A) : Prop := exists x, m = Ok x.

(** [float] comparison [a < b] *)
Definition Qltb (a b : Q) : bool :=
  match (a ?= b)%Q with
  | Lt => true
  | _ => false
  end.

(** [bool(x)] of an [Optional[List]]: [None] and [[]] are falsy. *)
Definition truthy {A} (x : option (list A)) : bool :=
  match x with
  | Some (_ :: _) => true
  | _ => false
  end.

(** [len(x)] *)
Definition len {A} (x : option (list A)) : result nat :=
  match x with
  | Some l => Ok (length l)
  | None => Raise TypeError
  end.

(** [l[i]] for an index [i >= 0] *)
Definition item {A} (l : list A) (i : nat) : result A :=
  match l !! i with
  | Some x => Ok x
  | None => Raise IndexError
  end.

(** [x[i]] where [x] may be [None] *)
Definition subscript {A} (x : option (list A)) (i : nat) : result A :=
  match x with
  | Some l => item l i
  | None => Raise TypeError
  end.

(** [l[:k]]: a negative [k] counts from the end. *)
Definition slice_to {A} (l : list A) (k : Z) : list A :=
  if (0 <=? k)%Z then take (Z.to_nat k) l
  else take (length l - Z.to_nat (- k)) l.

(** [l[-n:]] for [n > 0] *)
Definition slice_last {A} (n : nat) (l : list A) : list A :=
  drop (length l - n) l.

(** [list.sort(key=..., reverse=True)] and [sorted(..., reverse=True)]:
    the sort is stable, so among equal keys the earlier element stays
    first.  [insert_desc x l] puts [x], which precedes every element of
    [l] in the input, in front of the first element whose key is not
    greater than the key of [x]. *)
Section sort.
Context {A : Type} (key : A -> Q).

Fixpoint insert_desc (x : A) (l : list A) : list A :=
  match l with
  | [] => [x]
  | y :: l' => if Qltb (key x) (key y) then y :: insert_desc x l'
               else x :: y :: l'
  end.

Definition sort_desc (l : list A) : list A := foldr insert_desc [] l.

(** [max(l, key=key)]: the first of the greatest elements; [ValueError]
    on an empty sequence. *)
Definition max_by (l : list A) : result A :=
  match l with
  | [] => Raise ValueError
  | x :: l' => Ok (fold_left (fun best y => if Qltb (key best) (key y) then y else best) l' x)
  end.
End sort.

(** [min(a, b)]: [b] when [b < a], else [a]. *)
Definition min2 (a b : Q) : Q := if Qltb b a then b else a.

(** Rounding to the nearest integer, ties to the even one. *)
Definition round_half_even (x : Q) : Z :=
  let f := Qfloor x in
  match (x - inject_Z f ?= 1 # 2)%Q with
  | Lt => f
  | Gt => (f + 1)%Z
  | Eq => if Z.even f then f else (f + 1)%Z
  end.

(** [round(x, ndigits)] *)
Definition round (x : Q) (ndigits : nat) : Q :=
  let scale := (10 ^ Z.of_nat ndigits)%Z in
  (inject_Z (round_half_even (x * inject_Z scale)) / inject_Z scale)%Q.

(** [f"{x:.<ndigits>f}"] *)
Definition format_fixed (ndigits : nat) (x : Q) : string :=
  let scale := (10 ^ Z.of_nat ndigits)%Z in
  let n := Z.abs (round_half_even (x * inject_Z scale)) in
  let frac := pretty (n mod scale)%Z in
  let zeros := String.concat "" (replicate (ndigits - String.length frac) "0") in
  (if Qltb x 0 then "-" else "") +:+ pretty (n / scale)%Z +:+
  (if decide (ndigits = 0) then "" else "." +:+ zeros +:+ frac).

(** [s.lower()] *)
Definition lower_ascii (c : ascii) : ascii :=
  let n := nat_of_ascii c in
  if (65 <=? n) && (n <=? 90) then ascii_of_nat (n + 32) else c.

Fixpoint lower (s : string) : string :=
  match s with
  | EmptyString => EmptyString
  | String c s' => String (lower_ascii c) (lower s')
  end.

(** [needle in s] *)
Definition contains (needle s : string) : bool :=
  bool_decide (is_Some (String.index 0 needle s)).

(** [s[:n]] *)
Definition str_take (n : nat) (s : string) : string := String.substring 0 n s.

(** [l[k:]]: a negative [k] counts from the end. *)
Definition slice_from {A} (l : list A) (k : Z) : list A :=
  if (0 <=? k)%Z then drop (Z.to_nat k) l
  else drop (length l - Z.to_nat (- k)) l.

(** [l[-1]] *)
Definition last_item {A} (l : list A) : result A :=
  match last l with
  | Some x => Ok x
  | None => Raise IndexError
  end.

(** [sum(xs)] of floats and of ints *)
Definition sum (xs : list Q) : Q := foldl Qplus 0%Q xs.

Definition sum_int (ns : list nat) : nat := foldl Nat.add 0 ns.

(** [int(x)]: truncation toward zero. *)
Definition int (x : Q) : Z := if Qltb x 0 then Qceiling x else Qfloor x.

(** [bool(d)] of an [Optional[Dict]]: [None] and [{}] are falsy. *)
Definition truthy_dict {K V} `{Countable K} (d : option (gmap K V)) : bool :=
  match d with
  | Some m => bool_decide (m <> ∅)
  | None => false
  end.

End Py.
Import Py.

(** ** Data model *)

(** Metadata values are scalars. *)
Inductive MetaValue : Type :=
| MStr (s : string)
| MInt (n : Z)
| MFloat (x : Q)
| MBool (b : bool).

Abbreviation Metadata := (gmap string MetaValue).

(** The reply of the vector index ([chromadb]'s [QueryResult]): one inner
    list per query text, every field possibly [None]. *)
Record QueryResult : Type := {
  qr_ids : option (list (list string));
  qr_documents : option (list (list string));
  qr_metadatas : option (list (list Metadata));
  qr_distances : option (list (list Q))
}.

(** The dictionary that [_combine_results] builds for a candidate. *)
Record Result : Type := {
  res_id : string;
  res_content : string;
  res_metadata : Metadata;
  res_score : Q;
  res_source : string
}.

(** A document dictionary as [add_retrieved_documents] reads it, with
    [dict.get]: any key may be missing. *)
Record DocDict : Type := {
  dd_id : option string;
  dd_content : option string;
  dd_score : option Q;
  dd_metadata : option Metadata
}.

Definition as_dict (r : Result) : DocDict :=
  {| dd_id := Some (res_id r); dd_content := Some (res_content r);
     dd_score := Some (res_score r); dd_metadata := Some (res_metadata r) |}.

(** [backend/config.py] *)
Definition TOP_K_RESULTS : Z := 5.

(** ** backend/retriever.py *)

Module Retriever.

(** The vector index, seen through [VectorStore.search]. *)
Record VectorStore : Type := {
  search : string -> Z -> option Metadata -> result QueryResult
}.

Record HybridRetriever : Type := {
  vector_store : VectorStore
}.

(** [_vector_search]: the message of the debug record is built whatever
    the log level, so [results['ids'][0]] is evaluated. *)
Definition _vector_search (self : HybridRetriever) (query : string) (top_k : Z)
    (metadata_filter : option Metadata) : result QueryResult :=
  results ← search (vector_store self) query top_k metadata_filter;
  first ← subscript (qr_ids results) 0;
  let _ := length first in
  mret results.

(** [x[0] if x else []] *)
Definition first_or_empty {A} (x : option (list (list A))) : result (list A) :=
  if truthy x then subscript x 0 else mret [].

(** The body of the loop over [enumerate(ids[:top_k])]. *)
Definition candidate (documents : list string) (metadatas : list Metadata)
    (distances : list Q) (i : nat) (doc_id : string) : result Result :=
  content ← (if decide (i < length documents) then item documents i else mret "");
  metadata ← (if decide (i < length metadatas) then item metadatas i else mret ∅);
  score ← (if decide (i < length distances)
           then d ← item distances i; mret (1 - d)%Q
           else mret 1.0%Q);
  mret {| res_id := doc_id; res_content := content; res_metadata := metadata;
          res_score := score; res_source := "vector" |}.

(** [for i, doc_id in enumerate(items): combined.append(body i doc_id)],
    started at index [i]. *)
Fixpoint for_enumerate (body : nat -> string -> result Result) (i : nat)
    (items : list string) (combined : list Result) : result (list Result) :=
  match items with
  | [] => mret combined
  | doc_id :: items' =>
      r ← body i doc_id;
      for_enumerate body (S i) items' (combined ++ [r])
  end.

(** The guard [ids and len(ids) > 0 and len(ids[0]) > 0]. *)
Definition has_results (vector_results : QueryResult) : result bool :=
  if truthy (qr_ids vector_results) then
    n ← len (qr_ids vector_results);
    if decide (0 < n) then
      first ← subscript (qr_ids vector_results) 0;
      mret (bool_decide (0 < length first))
    else mret false
  else mret false.

(** [_combine_results] up to the sort: the list [combined] in candidate
    order. *)
Definition collect (vector_results : QueryResult) (top_k : Z) : result (list Result) :=
  b ← has_results vector_results;
  if b : bool then
    ids ← subscript (qr_ids vector_results) 0;
    documents ← first_or_empty (qr_documents vector_results);
    metadatas ← first_or_empty (qr_metadatas vector_results);
    distances ← first_or_empty (qr_distances vector_results);
    for_enumerate (candidate documents metadatas distances) 0 (slice_to ids top_k) []
  else mret [].

Definition _combine_results (vector_results : QueryResult) (top_k : Z) : result (list Result) :=
  combined ← collect vector_results top_k;
  let combined := sort_desc res_score combined in
  mret (slice_to combined top_k).

(** [retrieve]: both [except] clauses log and raise again. *)
Definition retrieve (self : HybridRetriever) (query : string) (top_k : Z)
    (metadata_filter : option Metadata) : result (list Result) :=
  vector_results ← _vector_search self query top_k metadata_filter;
  _combine_results vector_results top_k.

End Retriever.

(** ** backend/vector_store.py *)

Module Store.

(** The keyword arguments of [collection.query]. *)
Record QueryArgs : Type := {
  query_texts : list string;
  n_results : Z;
  include : list string;
  where_filter : option Metadata
}.

(** The [chromadb] collection, seen through [collection.query]. *)
Record Collection : Type := {
  query : QueryArgs -> result QueryResult
}.

(** [result_count], computed for the debug record only. *)
Definition result_count (results : QueryResult) : result nat :=
  if truthy (qr_ids results) then
    n ← len (qr_ids results);
    if decide (0 < n) then
      first ← subscript (qr_ids results) 0;
      mret (length first)
    else mret 0
  else mret 0.

(** [VectorStore.search]: the [except] clause logs and raises again. *)
Definition search (collection : Collection) (query_text : string) (n_results : Z)
    (metadata_filter : option Metadata) : result QueryResult :=
  let search_params :=
    {| query_texts := [query_text]; n_results := n_results;
       include := ["documents"; "metadatas"; "distances"];
       where_filter := None |} in
  let search_params :=
    if truthy_dict metadata_filter
    then {| query_texts := query_texts search_params;
            n_results := Store.n_results search_params;
            include := include search_params;
            where_filter := metadata_filter |}
    else search_params in
  results ← query collection search_params;
  _ ← result_count results;
  mret results.

(** The [VectorStore] object over a collection, as the retriever uses it. *)
Definition vector_store (collection : Collection) : Retriever.VectorStore :=
  {| Retriever.search := search collection |}.

End Store.

(** ** Effects: object state, clock, log, exceptions *)

Inductive Level : Type := INFO | WARNING | ERROR.

Record LogRecord : Type := {
  levelname : Level;
  message : string
}.

(** What lies outside the objects: the clock, read at position [ticks], and
    the records emitted so far by the logger of [backend.metrics]. *)
Record Sys : Type := {
  clock : nat -> Q;
  ticks : nat;
  metrics_log : list LogRecord
}.

(** A method of an object with fields [S]: it may read the clock, log,
    update the fields and raise.  The updates made before an exception is
    raised remain. *)
Definition Eff (S A : Type) : Type := S -> Sys -> result A * S * Sys.

Global Instance eff_ret {S} : MRet (Eff S) := fun A x s sys => (Ok x, s, sys).
Global Instance eff_bind {S} : MBind (Eff S) := fun A B f m s sys =>
  match m s sys with
  | (Ok x, s', sys') => f x s' sys'
  | (Raise e, s', sys') => (Raise e, s', sys')
  end.

Section eff.
Context {S : Type}.

Definition get : Eff S S := fun s sys => (Ok s, s, sys).
Definition modify (f : S -> S) : Eff S unit := fun s sys => (Ok tt, f s, sys).
Definition raise {A} (e : exn) : Eff S A := fun s sys => (Raise e, s, sys).
Definition lift {A} (r : result A) : Eff S A := fun s sys => (r, s, sys).

(** [try: m  except Exception as e: handler e] *)
Definition try_except {A} (m : Eff S A) (handler : exn -> Eff S A) : Eff S A :=
  fun s sys =>
    match m s sys with
    | (Raise e, s', sys') => handler e s' sys'
    | r => r
    end.

(** The outcome of [m], for a [try] whose [except] clause returns. *)
Definition attempt {A} (m : Eff S A) : Eff S (result A) := fun s sys =>
  match m s sys with
  | (r, s', sys') => (Ok r, s', sys')
  end.

(** [time.time()] and [datetime.now()] *)
Definition time_time : Eff S Q := fun s sys =>
  (Ok (clock sys (ticks sys)), s,
   {| clock := clock sys; ticks := Datatypes.S (ticks sys); metrics_log := metrics_log sys |}).

(** [logger.<level>(msg)] in [backend/metrics.py] *)
Definition logger (level : Level) (msg : string) : Eff S unit := fun s sys =>
  (Ok tt, s,
   {| clock := clock sys; ticks := ticks sys;
      metrics_log := metrics_log sys ++ [{| levelname := level; message := msg |}] |}).

(** A method of a component, run on the object that holds it. *)
Definition on {T A} (field : S -> T) (set : T -> S -> S) (m : Eff T A) : Eff S A :=
  fun s sys =>
    match m (field s) sys with
    | (r, t', sys') => (r, set t' s, sys')
    end.

Definition value_of {A} (r : result A * S * Sys) : result A := r.1.1.
Definition state_of {A} (r : result A * S * Sys) : S := r.1.2.
Definition sys_of {A} (r : result A * S * Sys) : Sys := r.2.
End eff.

(** ** backend/metrics.py *)

Module Metrics.

Record PerformanceMetrics : Type := {
  timestamp : Q;
  query_processing_time : Q;
  document_retrieval_time : Q;
  response_generation_time : Q;
  total_response_time : Q;
  documents_retrieved : nat;
  documents_used : nat;
  context_length : nat;
  query_length : nat;
  response_length : nat;
  similarity_scores : list Q;
  metadata : option Metadata
}.

Record MetricsTracker : Type := {
  metrics_history : list PerformanceMetrics;
  current_timers : gmap string Q
}.

(** [__init__] *)
Definition init : MetricsTracker :=
  {| metrics_history := []; current_timers := ∅ |}.

Definition set_timers (f : gmap string Q -> gmap string Q) (self : MetricsTracker) : MetricsTracker :=
  {| metrics_history := metrics_history self; current_timers := f (current_timers self) |}.

Definition start_timer (timer_name : string) : Eff MetricsTracker unit :=
  now ← time_time;
  modify (set_timers <[timer_name := now]>).

(** [d[key]] and [del d[key]] raise [KeyError] on a missing key. *)
Definition getitem (key : string) : Eff MetricsTracker Q :=
  self ← get;
  match current_timers self !! key with
  | Some v => mret v
  | None => raise (KeyError key)
  end.

Definition delitem (key : string) : Eff MetricsTracker unit :=
  self ← get;
  match current_timers self !! key with
  | Some _ => modify (set_timers (delete key))
  | None => raise (KeyError key)
  end.

Definition stop_timer (timer_name : string) : Eff MetricsTracker Q :=
  self ← get;
  if decide (current_timers self !! timer_name = None) then
    logger WARNING ("Timer " +:+ timer_name +:+ " not found");;
    mret 0.0%Q
  else
    now ← time_time;
    started ← getitem timer_name;
    let elapsed_time := (now - started)%Q in
    delitem timer_name;;
    mret elapsed_time.

Definition record_metrics (metrics : PerformanceMetrics) : Eff MetricsTracker unit :=
  modify (fun self => {| metrics_history := metrics_history self ++ [metrics];
                         current_timers := current_timers self |}).

(** [get_latest_metrics] *)
Definition get_latest_metrics : Eff MetricsTracker (option PerformanceMetrics) :=
  self ← get;
  if decide (metrics_history self = []) then mret None
  else
    latest ← lift (last_item (metrics_history self));
    mret (Some latest).

(** [sum(f(m) for m in recent_metrics) / len(recent_metrics)], on a list
    that the caller has tested to be non-empty.  The sum and the quotient
    are exact here; the [float] ones of the code can differ from them in
    the last place, so nothing below relies on the exact value of a mean of
    times. *)
Definition mean (xs : list Q) : Q :=
  (sum xs / inject_Z (Z.of_nat (length xs)))%Q.

Definition mean_int (ns : list nat) : Q :=
  (inject_Z (Z.of_nat (sum_int ns)) / inject_Z (Z.of_nat (length ns)))%Q.

Definition get_average_metrics (last_n : Z) : Eff MetricsTracker (option PerformanceMetrics) :=
  self ← get;
  if decide (metrics_history self = []) then mret None
  else
    let recent_metrics := slice_from (metrics_history self) (- last_n) in
    if decide (recent_metrics = []) then mret None
    else
      let avg_query_processing_time := mean (query_processing_time <$> recent_metrics) in
      let avg_document_retrieval_time := mean (document_retrieval_time <$> recent_metrics) in
      let avg_response_generation_time := mean (response_generation_time <$> recent_metrics) in
      let avg_total_response_time := mean (total_response_time <$> recent_metrics) in
      let avg_documents_retrieved := mean_int (documents_retrieved <$> recent_metrics) in
      let avg_documents_used := mean_int (documents_used <$> recent_metrics) in
      let avg_context_length := mean_int (context_length <$> recent_metrics) in
      let avg_query_length := mean_int (query_length <$> recent_metrics) in
      let avg_response_length := mean_int (response_length <$> recent_metrics) in
      let all_similarity_scores := recent_metrics ≫= similarity_scores in
      now ← time_time;
      mret (Some {| timestamp := now;
                    query_processing_time := avg_query_processing_time;
                    document_retrieval_time := avg_document_retrieval_time;
                    response_generation_time := avg_response_generation_time;
                    total_response_time := avg_total_response_time;
                    documents_retrieved := Z.to_nat (int avg_documents_retrieved);
                    documents_used := Z.to_nat (int avg_documents_used);
                    context_length := Z.to_nat (int avg_context_length);
                    query_length := Z.to_nat (int avg_query_length);
                    response_length := Z.to_nat (int avg_response_length);
                    similarity_scores := all_similarity_scores;
                    metadata := None |}).

(** The dictionary of [get_metrics_summary]: either the message alone or
    the five entries.  [tracking_since] holds the timestamp that the code
    renders with [isoformat]. *)
Record Summary : Type := {
  total_queries_processed : nat;
  average_response_time : Q;
  average_documents_retrieved : Q;
  recent_performance : option PerformanceMetrics;
  tracking_since : option Q
}.

Inductive MetricsSummary : Type :=
| NoMetrics (message : string)
| Metrics (summary : Summary).

Definition get_metrics_summary : Eff MetricsTracker MetricsSummary :=
  self ← get;
  if decide (metrics_history self = []) then mret (NoMetrics "No metrics recorded yet")
  else
    let total_queries := length (metrics_history self) in
    let avg_response_time := mean (total_response_time <$> metrics_history self) in
    let avg_documents_retrieved := mean_int (documents_retrieved <$> metrics_history self) in
    recent_metrics ← get_average_metrics 10;
    first ← lift (item (metrics_history self) 0);
    mret (Metrics {| total_queries_processed := total_queries;
                     average_response_time := round avg_response_time 4;
                     average_documents_retrieved := round avg_documents_retrieved 2;
                     recent_performance := recent_metrics;
                     tracking_since := Some (timestamp first) |}).

Definition clear_metrics : Eff MetricsTracker unit :=
  modify (fun _ => {| metrics_history := []; current_timers := ∅ |}).

End Metrics.

(** ** backend/context_manager.py *)

Module Context.

Record Message : Type := {
  role : string;
  content : string;
  timestamp : Q;
  metadata : option Metadata
}.

Record RetrievedDocument : Type := {
  doc_id : string;
  doc_content : string;
  doc_score : Q;
  doc_metadata : Metadata
}.

Record ContextManager : Type := {
  max_context_length : Z;
  conversation_history : list Message;
  retrieved_documents : list RetrievedDocument;
  current_query : option string
}.

(** The dictionary returned by [get_context_window]; [asdict] keeps the
    fields of a dataclass as they are. *)
Record ContextWindow : Type := {
  cw_conversation_history : list Message;
  cw_retrieved_documents : list RetrievedDocument;
  cw_current_query : option string
}.

Record ContextSummary : Type := {
  conversation_length : nat;
  retrieved_documents_count : nat;
  summary_current_query : option string;
  total_tokens_estimated : nat
}.

(** [__init__] *)
Definition init (max_context_length : Z) : ContextManager :=
  {| max_context_length := max_context_length; conversation_history := [];
     retrieved_documents := []; current_query := None |}.

Definition append_message (m : Message) (self : ContextManager) : ContextManager :=
  {| max_context_length := max_context_length self;
     conversation_history := conversation_history self ++ [m];
     retrieved_documents := retrieved_documents self;
     current_query := current_query self |}.

Definition append_document (d : RetrievedDocument) (self : ContextManager) : ContextManager :=
  {| max_context_length := max_context_length self;
     conversation_history := conversation_history self;
     retrieved_documents := retrieved_documents self ++ [d];
     current_query := current_query self |}.

Definition add_user_message (content : string) (metadata : option Metadata)
    : Eff ContextManager unit :=
  now ← time_time;
  modify (append_message {| role := "user"; content := content;
                            timestamp := now; metadata := metadata |}).

Definition add_assistant_message (content : string) (metadata : option Metadata)
    : Eff ContextManager unit :=
  now ← time_time;
  modify (append_message {| role := "assistant"; content := content;
                            timestamp := now; metadata := metadata |}).

Definition set_current_query (query : string) : Eff ContextManager unit :=
  modify (fun self =>
    {| max_context_length := max_context_length self;
       conversation_history := conversation_history self;
       retrieved_documents := retrieved_documents self;
       current_query := Some query |}).

(** The [RetrievedDocument] built from a dictionary with [dict.get]. *)
Definition of_dict (doc : DocDict) : RetrievedDocument :=
  {| doc_id := default "" (dd_id doc);
     doc_content := default "" (dd_content doc);
     doc_score := default 0.0%Q (dd_score doc);
     doc_metadata := default ∅ (dd_metadata doc) |}.

Fixpoint add_retrieved_documents (documents : list DocDict) : Eff ContextManager unit :=
  match documents with
  | [] => mret tt
  | doc :: documents' =>
      modify (append_document (of_dict doc));;
      add_retrieved_documents documents'
  end.

Definition _trim_conversation_history : Eff ContextManager (list Message) :=
  self ← get;
  let max_history := 10 in
  if decide (length (conversation_history self) <= max_history)
  then mret (conversation_history self)
  else mret (slice_last max_history (conversation_history self)).

Definition get_context_window : Eff ContextManager ContextWindow :=
  trimmed_history ← _trim_conversation_history;
  self ← get;
  let relevant_docs := slice_to (sort_desc doc_score (retrieved_documents self)) 3 in
  mret {| cw_conversation_history := trimmed_history;
          cw_retrieved_documents := relevant_docs;
          cw_current_query := current_query self |}.

Definition clear_context : Eff ContextManager unit :=
  modify (fun self =>
    {| max_context_length := max_context_length self;
       conversation_history := [];
       retrieved_documents := [];
       current_query := None |}).

Definition _estimate_tokens : Eff ContextManager nat :=
  self ← get;
  let total_chars := 0 in
  let total_chars := foldl (fun n msg => n + String.length (content msg)) total_chars
                           (conversation_history self) in
  let total_chars := foldl (fun n doc => n + String.length (doc_content doc)) total_chars
                           (retrieved_documents self) in
  let total_chars := match current_query self with
                     | Some q => if decide (q = "") then total_chars
                                 else total_chars + String.length q
                     | None => total_chars
                     end in
  mret (total_chars `div` 4).

Definition get_context_summary : Eff ContextManager ContextSummary :=
  self ← get;
  tokens ← _estimate_tokens;
  mret {| conversation_length := length (conversation_history self);
          retrieved_documents_count := length (retrieved_documents self);
          summary_current_query := current_query self;
          total_tokens_estimated := tokens |}.

(** The public methods, as calls that a client can make in any order. *)
Inductive Call : Type :=
| AddUserMessage (content : string) (metadata : option Metadata)
| AddAssistantMessage (content : string) (metadata : option Metadata)
| SetCurrentQuery (query : string)
| AddRetrievedDocuments (documents : list DocDict)
| GetContextWindow
| ClearContext
| GetContextSummary.

Definition call (c : Call) : Eff ContextManager unit :=
  match c with
  | AddUserMessage content metadata => add_user_message content metadata
  | AddAssistantMessage content metadata => add_assistant_message content metadata
  | SetCurrentQuery query => set_current_query query
  | AddRetrievedDocuments documents => add_retrieved_documents documents
  | GetContextWindow => get_context_window;; mret tt
  | ClearContext => clear_context
  | GetContextSummary => get_context_summary;; mret tt
  end.

Fixpoint calls (cs : list Call) : Eff ContextManager unit :=
  match cs with
  | [] => mret tt
  | c :: cs' => call c;; calls cs'
  end.

End Context.

(** ** api/app.py *)

Module App.
Import Retriever.

(** The module-level objects that [chat] uses.  The retriever holds no
    mutable field and is passed to [chat] instead. *)
Record World : Type := {
  context_manager : Context.ContextManager;
  metrics_tracker : Metrics.MetricsTracker
}.

Definition on_context {A} (m : Eff Context.ContextManager A) : Eff World A :=
  on context_manager
     (fun c w => {| context_manager := c; metrics_tracker := metrics_tracker w |}) m.

Definition on_metrics {A} (m : Eff Metrics.MetricsTracker A) : Eff World A :=
  on metrics_tracker
     (fun t w => {| context_manager := context_manager w; metrics_tracker := t |}) m.

Record DocumentSummary : Type := {
  ds_id : string;
  ds_content : string;
  ds_score : Q;
  ds_metadata : Metadata
}.

(** The JSON object that [chat] returns. *)
Record ChatResponse : Type := {
  query : string;
  response : string;
  confidence : Q;
  documents_retrieved : nat;
  response_time : string;
  retrieved_documents : list DocumentSummary
}.

(** [prefix + s[:n] + "..." if len(s) > n else s]: the conditional
    expression binds weaker than [+]. *)
Definition excerpt (prefix : string) (n : nat) (s : string) : string :=
  if decide (n < String.length s) then prefix +:+ str_take n s +:+ "..." else s.

Definition _generate_response (query : string) (documents : list Result) : result string :=
  if decide (documents = []) then
    mret "I don't have specific information about that topic in my knowledge base. Could you provide more details or ask about something else related to travel?"
  else
    best_doc ← max_by res_score documents;
    if contains "beach" (lower query) || contains "ocean" (lower query) then
      mret (excerpt "Based on my travel knowledge, beaches are wonderful destinations for relaxation. "
                    200 (res_content best_doc))
    else if contains "hotel" (lower query) || contains "accommodation" (lower query) then
      mret (excerpt "For accommodations, I recommend considering location and amenities. "
                    200 (res_content best_doc))
    else if contains "food" (lower query) || contains "restaurant" (lower query) then
      mret (excerpt "Food is an essential part of travel experience. "
                    200 (res_content best_doc))
    else
      mret (excerpt "Based on my travel knowledge: " 300 (res_content best_doc)).

Definition _calculate_confidence (documents : list Result) : result Q :=
  if decide (documents = []) then mret 0.0%Q
  else
    best_score ← max_by (fun s : Q => s) (res_score <$> documents);
    let confidence := min2 100.0%Q (best_score * 100)%Q in
    mret (round confidence 2).

Definition _fallback_response (query : string) : string :=
  let q := lower query in
  if contains "jammu" q then
    "Jammu (in Jammu & Kashmir) is a great base for religious visits and mountain access. " +:+
    "Quick tips: 1) Visit Vaishno Devi (allow 1-2 days). 2) Pack warm clothes if you go to higher altitudes. " +:+
    "3) Local transport: taxis and hired cabs; confirm fares in advance. 4) Try local food like rajma and kaladi. " +:+
    "If you want, upload any local guides or itineraries (PDF/DOCX) and I'll use them to give detailed day-by-day plans."
  else if contains "hotel" q || contains "accommodation" q then
    "For finding hotels: pick a neighbourhood close to the attractions you want, check recent reviews, " +:+
    "and filter by your budget and required amenities (Wi‑Fi, breakfast, free cancellation)."
  else if contains "flight" q || contains "airline" q then
    "For flights: search flexible dates 2–3 months ahead, consider mid‑week departures, and use price alerts. " +:+
    "If you give me your departure city and dates, I can suggest a strategy."
  else
    "I don't have matching documents in my knowledge base right now. " +:+
    "You can upload travel documents (itineraries, guides, bookings) using the 'Upload Travel Documents' button — " +:+
    "after that I'll provide specific, document-backed recommendations. Meanwhile, tell me the destination and travel dates and I'll give general planning tips.".

(** The record of a request answered without documents. *)
Definition minimal_metrics (now document_retrieval_time total_time : Q)
    (user_query response : string) : Metrics.PerformanceMetrics :=
  {| Metrics.timestamp := now;
     Metrics.query_processing_time := 0.0;
     Metrics.document_retrieval_time := document_retrieval_time;
     Metrics.response_generation_time := 0.0;
     Metrics.total_response_time := total_time;
     Metrics.documents_retrieved := 0;
     Metrics.documents_used := 0;
     Metrics.context_length := String.length user_query;
     Metrics.query_length := String.length user_query;
     Metrics.response_length := String.length response;
     Metrics.similarity_scores := [];
     Metrics.metadata := None |}.

(** The two fallback branches of [chat] differ in the retrieval time that
    they record and in the confidence that they report. *)
Definition fallback (user_query : string) (document_retrieval_time confidence : Q)
    : Eff World ChatResponse :=
  let response := _fallback_response user_query in
  total_time ← on_metrics (Metrics.stop_timer "total_response");
  now ← time_time;
  on_metrics (Metrics.record_metrics
    (minimal_metrics now document_retrieval_time total_time user_query response));;
  mret {| query := user_query;
          response := response;
          confidence := confidence;
          documents_retrieved := 0;
          response_time := format_fixed 2 total_time +:+ "s";
          retrieved_documents := [] |}.

Definition summary (doc : Result) : DocumentSummary :=
  {| ds_id := res_id doc;
     ds_content := excerpt "" 200 (res_content doc);
     ds_score := res_score doc;
     ds_metadata := res_metadata doc |}.

Definition chat (retriever : HybridRetriever) (query : gmap string string)
    : Eff World ChatResponse :=
  try_except
    (let user_query := default "" (query !! "message") in
     if decide (user_query = "") then raise (HTTPException 400 "Message is required")
     else
       on_metrics (Metrics.start_timer "total_response");;
       on_metrics (Metrics.start_timer "query_processing");;
       on_context (Context.set_current_query user_query);;
       on_context (Context.add_user_message user_query None);;
       query_processing_time ← on_metrics (Metrics.stop_timer "query_processing");
       on_metrics (Metrics.start_timer "document_retrieval");;
       retrieved ← attempt (lift (retrieve retriever user_query TOP_K_RESULTS None));
       match retrieved with
       | Raise e => fallback user_query 0.0%Q 80.0%Q
       | Ok retrieved_docs =>
          retrieval_time ← on_metrics (Metrics.stop_timer "document_retrieval");
          if decide (retrieved_docs = []) then
            fallback user_query retrieval_time 75.0%Q
          else
            on_metrics (Metrics.start_timer "response_generation");;
            on_context (Context.add_retrieved_documents (as_dict <$> retrieved_docs));;
            response ← lift (_generate_response user_query retrieved_docs);
            generation_time ← on_metrics (Metrics.stop_timer "response_generation");
            total_time ← on_metrics (Metrics.stop_timer "total_response");
            on_context (Context.add_assistant_message response None);;
            let similarity_scores := res_score <$> retrieved_docs in
            now ← time_time;
            on_metrics (Metrics.record_metrics
              {| Metrics.timestamp := now;
                 Metrics.query_processing_time := query_processing_time;
                 Metrics.document_retrieval_time := retrieval_time;
                 Metrics.response_generation_time := generation_time;
                 Metrics.total_response_time := total_time;
                 Metrics.documents_retrieved := length retrieved_docs;
                 Metrics.documents_used := 3 `min` length retrieved_docs;
                 Metrics.context_length :=
                   String.length user_query +
                   foldl plus 0 ((fun doc => String.length (res_content doc)) <$> retrieved_docs);
                 Metrics.query_length := String.length user_query;
                 Metrics.response_length := String.length response;
                 Metrics.similarity_scores := similarity_scores;
                 Metrics.metadata := None |});;
            confidence ← lift (_calculate_confidence retrieved_docs);
            mret {| query := user_query;
                    response := response;
                    confidence := confidence;
                    documents_retrieved := length retrieved_docs;
                    response_time := format_fixed 2 total_time +:+ "s";
                    retrieved_documents := summary <$> slice_to retrieved_docs 3 |}
       end)
    (fun e => raise (HTTPException 500 ("Error processing chat query: " +:+ exn_str e))).

(** [get_metrics] *)
Definition get_metrics : Eff World Metrics.MetricsSummary :=
  try_except (on_metrics Metrics.get_metrics_summary)
    (fun e => raise (HTTPException 500 ("Error retrieving metrics: " +:+ exn_str e))).

(** A chunk as the document processor returns it. *)
Record Document : Type := {
  page_content : string;
  doc_metadata : Metadata
}.

(** What [upload_document] calls outside this file: the path of an upload
    ([os.path.join(str(UPLOAD_DIR), filename)]), the body of the [with]
    block that reads the upload and writes it to that path,
    [document_processor.process_document] and [retriever.add_documents]. *)
Record UploadEnv : Type := {
  upload_path : string -> string;
  save_upload : string -> result unit;
  process_document : string -> result (list Document);
  add_documents : list (string * Metadata) -> result (list string)
}.

Record UploadResponse : Type := {
  filename : string;
  status : string;
  chunks_created : nat;
  processing_time : string
}.

Definition upload_document (env : UploadEnv) (file_filename : option string)
    : Eff World UploadResponse :=
  try_except
    (on_metrics (Metrics.start_timer "document_processing");;
     match file_filename with
     | None => raise (HTTPException 400 "Filename is required")
     | Some file_filename =>
         let file_path := upload_path env file_filename in
         lift (save_upload env file_path);;
         documents ← lift (process_document env file_path);
         let doc_entries := (fun doc => (page_content doc, doc_metadata doc)) <$> documents in
         doc_ids ← lift (add_documents env doc_entries);
         processing_time ← on_metrics (Metrics.stop_timer "document_processing");
         mret {| filename := file_filename;
                 status := "success";
                 chunks_created := length documents;
                 processing_time := format_fixed 2 processing_time +:+ "s" |}
     end)
    (fun e => raise (HTTPException 500 ("Error processing document: " +:+ exn_str e))).

End App.

(** * Specification *)

(** ** Vocabulary *)

Global Instance Qeq_decision : RelDecision Qeq := Qeq_dec.

(** The list of the first query in a field of the reply, empty when the
    field is [None] or has no inner list. *)
Definition inner {A} (x : option (list (list A))) : list A :=
  match x with
  | Some (l :: _) => l
  | _ => []
  end.

Definition in_unit_interval (x : Q) : Prop := (0 <= x <= 1)%Q.

Section order.
Context {A : Type} (key : A -> Q).

(** [a] may stand before [b] in a list ordered by decreasing key. *)
Definition desc (a b : A) : Prop := (key b <= key a)%Q.

(** The elements whose key equals [s], in the order of [l]. *)
Definition with_key (s : Q) (l : list A) : list A :=
  filter (fun x => key x == s)%Q l.

(** The elements of [output] with equal keys stand in the order that they
    have in [input]. *)
Definition keeps_order (input output : list A) : Prop :=
  forall s, with_key s output `prefix_of` with_key s input.

(** [top] holds [n] elements of [all] (all of them when there are fewer),
    and none of the others has a greater key. *)
Definition top_of (n : nat) (all top : list A) : Prop :=
  length top = n `min` length all /\
  exists others, all ≡ₚ top ++ others /\
    forall a b, a ∈ top -> b ∈ others -> (key b <= key a)%Q.
End order.

(** The result that the specification gives the candidate at position [i]:
    score [1 - distances[i]], or [1.0] without a distance; empty content
    and empty metadata when these are missing. *)
Definition ranked_candidate (documents : list string) (metadatas : list Metadata)
    (distances : list Q) (i : nat) (doc_id : string) : Result :=
  {| res_id := doc_id;
     res_content := default "" (documents !! i);
     res_metadata := default ∅ (metadatas !! i);
     res_score := match distances !! i with
                  | Some d => (1 - d)%Q
                  | None => 1.0%Q
                  end;
     res_source := "vector" |}.

(** The candidates of a reply in index order, at most [top_k] of them. *)
Definition candidates (vector_results : QueryResult) (top_k : Z) : list Result :=
  imap (ranked_candidate (inner (qr_documents vector_results))
                         (inner (qr_metadatas vector_results))
                         (inner (qr_distances vector_results)))
       (slice_to (inner (qr_ids vector_results)) top_k).

Definition is_max_score (documents : list Result) (best : Q) : Prop :=
  (exists r, r ∈ documents /\ res_score r = best) /\
  forall r, r ∈ documents -> (res_score r <= best)%Q.

(** The role and content of a turn. *)
Definition turn (m : Context.Message) : string * string :=
  (Context.role m, Context.content m).

(** The turns and the documents that a sequence of calls has added since
    its last [clear_context]. *)
Definition record_turn (acc : list (string * string)) (c : Context.Call)
    : list (string * string) :=
  match c with
  | Context.AddUserMessage content _ => acc ++ [("user", content)]
  | Context.AddAssistantMessage content _ => acc ++ [("assistant", content)]
  | Context.ClearContext => []
  | _ => acc
  end.

Definition record_documents (acc : list DocDict) (c : Context.Call) : list DocDict :=
  match c with
  | Context.AddRetrievedDocuments documents => acc ++ documents
  | Context.ClearContext => []
  | _ => acc
  end.

Definition turns_since_clear (cs : list Context.Call) : list (string * string) :=
  foldl record_turn [] cs.

Definition documents_since_clear (cs : list Context.Call) : list DocDict :=
  foldl record_documents [] cs.

(** A method that returns on every state: it never raises. *)
Definition total {S A} (m : Eff S A) : Prop :=
  forall s sys, returns (value_of (m s sys)).

Definition not_found (timer_name : string) : LogRecord :=
  {| levelname := WARNING; message := "Timer " +:+ timer_name +:+ " not found" |}.

Definition tick (sys : Sys) : Sys :=
  {| clock := clock sys; ticks := S (ticks sys); metrics_log := metrics_log sys |}.

Definition warn (r : LogRecord) (sys : Sys) : Sys :=
  {| clock := clock sys; ticks := ticks sys; metrics_log := metrics_log sys ++ [r] |}.

(** The fallback answer of [chat] at a given confidence. *)
Definition is_fallback (user_query : string) (c : Q) (r : App.ChatResponse) : Prop :=
  App.query r = user_query /\
  App.response r = App._fallback_response user_query /\
  App.confidence r = c /\
  App.documents_retrieved r = 0 /\
  App.retrieved_documents r = [].

(** ** Sample inputs *)

(** A retriever over an index that answers every query with [r]. *)
Definition index_answering (r : result QueryResult) : Retriever.HybridRetriever :=
  {| Retriever.vector_store := {| Retriever.search := fun _ _ _ => r |} |}.

Definition reply_ab : QueryResult :=
  {| qr_ids := Some [["a"; "b"]];
     qr_documents := Some [["first"; "second"]];
     qr_metadatas := None;
     qr_distances := Some [[0.1; 0.4]%Q] |}.

(** Three ids, one document, no metadata and two distances. *)
Definition reply_abc : QueryResult :=
  {| qr_ids := Some [["a"; "b"; "c"]];
     qr_documents := Some [["first"]];
     qr_metadatas := None;
     qr_distances := Some [[0.4; 0.1]%Q] |}.

Definition reply_none : QueryResult :=
  {| qr_ids := Some [[]];
     qr_documents := Some [[]];
     qr_metadatas := Some [[]];
     qr_distances := Some [[]] |}.

Definition scored (s : Q) : Result :=
  {| res_id := "a"; res_content := ""; res_metadata := ∅; res_score := s;
     res_source := "vector" |}.

Definition noon : Sys :=
  {| clock := fun n => inject_Z (Z.of_nat n); ticks := 0; metrics_log := [] |}.

Definition fresh : App.World :=
  {| App.context_manager := Context.init 4096; App.metrics_tracker := Metrics.init |}.

Definition hotel_request : gmap string string := {["message" := "any hotel?"]}.

Definition doc_scored (name : string) (s : Q) : DocDict :=
  {| dd_id := Some name; dd_content := None; dd_score := Some s; dd_metadata := None |}.

Definition fifteen_turns : list Context.Call :=
  (fun n => Context.AddUserMessage (pretty n) None) <$> seq 0 15.

(** ** Further vocabulary and sample inputs *)

(** A metrics record of a request that took [t] seconds in all and
    retrieved [n] documents. *)
Definition measured (t : Q) (n : nat) : Metrics.PerformanceMetrics :=
  {| Metrics.timestamp := t;
     Metrics.query_processing_time := 0;
     Metrics.document_retrieval_time := 0;
     Metrics.response_generation_time := 0;
     Metrics.total_response_time := t;
     Metrics.documents_retrieved := n;
     Metrics.documents_used := 3 `min` n;
     Metrics.context_length := 0;
     Metrics.query_length := 0;
     Metrics.response_length := 0;
     Metrics.similarity_scores := replicate n 0.5%Q;
     Metrics.metadata := None |}.

Definition tracker_of (history : list Metrics.PerformanceMetrics) : Metrics.MetricsTracker :=
  {| Metrics.metrics_history := history; Metrics.current_timers := ∅ |}.

(** Two context managers that differ at most in [max_context_length]. *)
Definition same_context (cm cm' : Context.ContextManager) : Prop :=
  Context.conversation_history cm = Context.conversation_history cm' /\
  Context.retrieved_documents cm = Context.retrieved_documents cm' /\
  Context.current_query cm = Context.current_query cm'.

(** The characters that a context manager stores: the contents of all
    turns and of all documents, and the current query. *)
Definition total_chars (cm : Context.ContextManager) : nat :=
  sum_list_with (fun m => String.length (Context.content m)) (Context.conversation_history cm) +
  sum_list_with (fun d => String.length (Context.doc_content d)) (Context.retrieved_documents cm) +
  from_option String.length 0 (Context.current_query cm).

(** The system after [n] more readings of the clock. *)
Definition ticked (n : nat) (sys : Sys) : Sys :=
  {| clock := clock sys; ticks := n + ticks sys; metrics_log := metrics_log sys |}.

(** Updates of the objects of [api/app.py]. *)
Definition with_timers (f : gmap string Q -> gmap string Q) (w : App.World) : App.World :=
  {| App.context_manager := App.context_manager w;
     App.metrics_tracker := Metrics.set_timers f (App.metrics_tracker w) |}.

Definition with_record (m : Metrics.PerformanceMetrics) (w : App.World) : App.World :=
  {| App.context_manager := App.context_manager w;
     App.metrics_tracker :=
       {| Metrics.metrics_history := Metrics.metrics_history (App.metrics_tracker w) ++ [m];
          Metrics.current_timers := Metrics.current_timers (App.metrics_tracker w) |} |}.

Definition with_context (f : Context.ContextManager -> Context.ContextManager)
    (w : App.World) : App.World :=
  {| App.context_manager := f (App.context_manager w);
     App.metrics_tracker := App.metrics_tracker w |}.

(** The timers that [chat] starts and stops. *)
Definition chat_timers : list string :=
  ["total_response"; "query_processing"; "document_retrieval"; "response_generation"].

(** An upload whose steps all succeed with the given chunks. *)
Definition upload_of (chunks : list App.Document) : App.UploadEnv :=
  {| App.upload_path := fun name => "uploads/" +:+ name;
     App.save_upload := fun _ => Ok tt;
     App.process_document := fun _ => Ok chunks;
     App.add_documents := fun entries => Ok ((fun _ => "id") <$> entries) |}.

(** * Properties *)

(** ** The model at work *)

Example slice_counts_from_the_end : slice_to ["a"; "b"; "c"] (-1) = ["a"; "b"].
Proof. reflexivity. Qed.

Example round_ties_to_even :
  round 0.125%Q 2 = 0.12%Q /\ round 0.375%Q 2 = 0.38%Q /\ round 12.3456%Q 2 = 12.35%Q.
Proof. repeat split. Qed.

Example format_two_decimals :
  format_fixed 2 (1234567 # 1000) = "1234.57" /\ format_fixed 2 (5 # 100) = "0.05".
Proof. split; reflexivity. Qed.

Example ranked_by_score :
  Retriever.retrieve (index_answering (Ok reply_abc)) "beach" TOP_K_RESULTS None
  = Ok [ {| res_id := "c"; res_content := ""; res_metadata := ∅;
            res_score := 1.0; res_source := "vector" |};
         {| res_id := "b"; res_content := ""; res_metadata := ∅;
            res_score := 0.9; res_source := "vector" |};
         {| res_id := "a"; res_content := "first"; res_metadata := ∅;
            res_score := 0.6; res_source := "vector" |} ].
Proof. reflexivity. Qed.

Example chat_answers :
  value_of (App.chat (index_answering (Ok reply_ab)) hotel_request fresh noon)
  = Ok {| App.query := "any hotel?";
          App.response := "first";
          App.confidence := 90.00;
          App.documents_retrieved := 2;
          App.response_time := "8.00s";
          App.retrieved_documents :=
            [ {| App.ds_id := "a"; App.ds_content := "first";
                 App.ds_score := 0.9; App.ds_metadata := ∅ |};
              {| App.ds_id := "b"; App.ds_content := "second";
                 App.ds_score := 0.6; App.ds_metadata := ∅ |} ] |}.
Proof. vm_compute. reflexivity. Qed.

Example chat_without_message :
  value_of (App.chat (index_answering (Ok reply_ab)) ∅ fresh noon)
  = Raise (HTTPException 500 "Error processing chat query: 400: Message is required").
Proof. vm_compute. reflexivity. Qed.

(** ** Python primitives *)

Lemma Qltb_true a b : Qltb a b = true <-> (a < b)%Q.
Proof.
  unfold Qltb. rewrite Qlt_alt. by destruct (a ?= b)%Q.
Qed.

Lemma Qltb_false a b : Qltb a b = false <-> (b <= a)%Q.
Proof.
  unfold Qltb. rewrite Qle_alt, <- Qcompare_antisym.
  destruct (b ?= a)%Q; simpl; split; intros; congruence.
Qed.

Lemma returns_ok {A} (x : A) : returns (Ok x).
Proof. by exists x. Qed.

Section slices.
Context {A : Type}.
Implicit Types (l : list A) (k : Z).

Lemma slice_to_prefix l k : slice_to l k `prefix_of` l.
Proof. unfold slice_to. case_match; apply prefix_take. Qed.

Lemma slice_to_nil k : slice_to (@nil A) k = [].
Proof. unfold slice_to. case_match; apply take_nil. Qed.

Lemma slice_to_length l k : length (slice_to l k) <= length l.
Proof. apply prefix_length, slice_to_prefix. Qed.

Lemma slice_to_length_nonneg l k :
  (0 <= k)%Z -> length (slice_to l k) = Z.to_nat k `min` length l.
Proof.
  intros Hk. unfold slice_to.
  destruct (Z.leb_spec 0 k); [apply length_take | lia].
Qed.

Lemma slice_to_nat l (n : nat) : slice_to l (Z.of_nat n) = take n l.
Proof.
  unfold slice_to. destruct (Z.leb_spec 0 (Z.of_nat n)); [| lia].
  by rewrite Nat2Z.id.
Qed.

Lemma slice_last_length n l : length (slice_last n l) = n `min` length l.
Proof. unfold slice_last. rewrite length_drop. lia. Qed.

Lemma slice_last_suffix n l : slice_last n l `suffix_of` l.
Proof. apply suffix_drop. Qed.
End slices.

Section sorting.
Context {A : Type} (key : A -> Q).
Implicit Types (x : A) (l : list A).

Lemma insert_desc_perm x l : insert_desc key x l ≡ₚ x :: l.
Proof.
  induction l as [|y l IH]; simpl; [done|].
  destruct (Qltb (key x) (key y)); [|done].
  rewrite IH. apply perm_swap.
Qed.

Lemma sort_desc_perm l : sort_desc key l ≡ₚ l.
Proof.
  induction l as [|x l IH]; simpl; [done|].
  by rewrite insert_desc_perm, IH.
Qed.

Lemma sort_desc_length l : length (sort_desc key l) = length l.
Proof. by rewrite sort_desc_perm. Qed.

Lemma sort_desc_elem x l : x ∈ sort_desc key l <-> x ∈ l.
Proof. by rewrite sort_desc_perm. Qed.

Lemma insert_desc_sorted x l :
  StronglySorted (desc key) l -> StronglySorted (desc key) (insert_desc key x l).
Proof.
  induction 1 as [|y l Hl IH Hy]; simpl.
  - repeat constructor.
  - destruct (Qltb (key x) (key y)) eqn:Hxy.
    + apply Qltb_true in Hxy. constructor; [done|].
      rewrite insert_desc_perm. constructor; [|done].
      unfold desc. by apply Qlt_le_weak.
    + apply Qltb_false in Hxy.
      constructor; [by constructor|].
      constructor; [done|].
      eapply Forall_impl; [exact Hy|].
      unfold desc. intros z Hz. exact (Qle_trans _ _ _ Hz Hxy).
Qed.

Lemma sort_desc_sorted l : StronglySorted (desc key) (sort_desc key l).
Proof.
  induction l as [|x l IH]; simpl; [constructor|].
  by apply insert_desc_sorted.
Qed.

Lemma insert_desc_with_key s x l :
  with_key key s (insert_desc key x l) = with_key key s (x :: l).
Proof.
  unfold with_key. induction l as [|y l IH]; simpl; [done|].
  destruct (Qltb (key x) (key y)) eqn:Hxy; [|done].
  apply Qltb_true in Hxy.
  rewrite (filter_cons _ y), IH, !(filter_cons _ x), (filter_cons _ y).
  repeat case_decide; try done.
  exfalso. apply (Qlt_irrefl (key x)).
  eapply Qlt_le_trans; [exact Hxy|].
  apply Qle_lteq. right. etransitivity; [eassumption | by symmetry].
Qed.

(** The sort is stable. *)
Lemma sort_desc_stable s l : with_key key s (sort_desc key l) = with_key key s l.
Proof.
  induction l as [|x l IH]; simpl; [done|].
  rewrite insert_desc_with_key. unfold with_key in *.
  by rewrite !(filter_cons _ x), IH.
Qed.

Lemma with_key_head x l : with_key key (key x) (x :: l) = x :: with_key key (key x) l.
Proof. unfold with_key. by rewrite filter_cons_True. Qed.

Lemma with_key_elem s x l : x ∈ with_key key s l <-> (key x == s)%Q /\ x ∈ l.
Proof. unfold with_key. by rewrite list_elem_of_filter. Qed.

Lemma sorted_head_greatest x y l :
  StronglySorted (desc key) (y :: l) -> x ∈ y :: l -> (key x <= key y)%Q.
Proof.
  intros [_ Hy]%StronglySorted_inv [-> | Hx]%elem_of_cons; [apply Qle_refl|].
  rewrite Forall_forall in Hy. by apply Hy.
Qed.

(** A list in decreasing order of key is determined by the order of its
    elements of equal key: whatever algorithm [list.sort] runs, a stable
    descending sort has one possible result, the one of [sort_desc]. *)
Lemma stable_sorted_unique l1 : forall l2,
  StronglySorted (desc key) l1 -> StronglySorted (desc key) l2 ->
  (forall s, with_key key s l1 = with_key key s l2) ->
  l1 = l2.
Proof.
  induction l1 as [|x l1 IH]; intros [|y l2] H1 H2 Hs; [done| | |].
  - specialize (Hs (key y)). by rewrite with_key_head in Hs.
  - specialize (Hs (key x)). by rewrite with_key_head in Hs.
  - assert (key x == key y)%Q as Hxy.
    { apply Qle_antisym.
      - apply (sorted_head_greatest x y l2 H2).
        apply (with_key_elem (key x)). rewrite <- Hs, with_key_head.
        apply elem_of_cons. by left.
      - apply (sorted_head_greatest y x l1 H1).
        apply (with_key_elem (key y)). rewrite Hs, with_key_head.
        apply elem_of_cons. by left. }
    assert (x = y) as <-.
    { specialize (Hs (key x)). rewrite with_key_head in Hs.
      unfold with_key in Hs. rewrite filter_cons_True in Hs by (by symmetry).
      congruence. }
    f_equal. apply IH.
    + by apply StronglySorted_inv in H1 as [? _].
    + by apply StronglySorted_inv in H2 as [? _].
    + intros s. specialize (Hs s). unfold with_key in *.
      rewrite !(filter_cons _ x) in Hs. case_decide; congruence.
Qed.

Lemma sort_desc_unique l l' :
  StronglySorted (desc key) l' ->
  (forall s, with_key key s l' = with_key key s l) ->
  l' = sort_desc key l.
Proof.
  intros Hsorted Hstable. apply stable_sorted_unique; [done | apply sort_desc_sorted |].
  intros s. by rewrite sort_desc_stable.
Qed.

Lemma sorted_prefix l1 l2 :
  l1 `prefix_of` l2 -> StronglySorted (desc key) l2 -> StronglySorted (desc key) l1.
Proof.
  intros [k ->]. revert k. induction l1 as [|x l1 IH]; intros k Hs; [constructor|].
  simpl in Hs. apply StronglySorted_inv in Hs as [Hs Hx].
  constructor; [by eapply IH|].
  by apply Forall_app in Hx as [? _].
Qed.

Lemma with_key_prefix s l1 l2 :
  l1 `prefix_of` l2 -> with_key key s l1 `prefix_of` with_key key s l2.
Proof.
  intros [k ->]. unfold with_key. rewrite filter_app. by eexists.
Qed.

(** The first [k] elements of the sorted list are in decreasing order and
    keep, among equal keys, the order of the input. *)
Lemma ranked_prefix l k :
  StronglySorted (desc key) (slice_to (sort_desc key l) k) /\
  keeps_order key l (slice_to (sort_desc key l) k).
Proof.
  split.
  - eapply sorted_prefix; [apply slice_to_prefix | apply sort_desc_sorted].
  - intros s. rewrite <- (sort_desc_stable s l).
    apply with_key_prefix, slice_to_prefix.
Qed.

(** The first [n] elements of the sorted list are [n] greatest ones. *)
Lemma take_sorted_top n l : top_of key n l (take n (sort_desc key l)).
Proof.
  split; [by rewrite length_take, sort_desc_length|].
  exists (drop n (sort_desc key l)). split.
  - by rewrite take_drop, sort_desc_perm.
  - intros a b Ha Hb.
    pose proof (sort_desc_sorted l) as Hs.
    rewrite <- (take_drop n (sort_desc key l)) in Hs.
    revert Hs Ha. generalize (take n (sort_desc key l)). intros t Hs Ha.
    induction t as [|c t IH]; [by apply elem_of_nil in Ha|].
    simpl in Hs. apply StronglySorted_inv in Hs as [Hs Hc].
    apply elem_of_cons in Ha as [-> | Ha]; [|by apply IH].
    rewrite Forall_forall in Hc. apply Hc.
    apply elem_of_app. by right.
Qed.
End sorting.

(** ** The retrieval ranker *)

Section retriever.
Import Retriever.
Implicit Types (vr : QueryResult) (top_k : Z) (self : HybridRetriever).

Lemma item_lookup {A} (l : list A) i :
  i < length l -> exists x, l !! i = Some x /\ item l i = Ok x.
Proof.
  intros Hi. destruct (lookup_lt_is_Some_2 l i Hi) as [x Hx].
  exists x. unfold item. by rewrite Hx.
Qed.

(** The guards of the loop body make every subscript succeed. *)
Lemma candidate_ok documents metadatas distances i doc_id :
  candidate documents metadatas distances i doc_id
  = Ok (ranked_candidate documents metadatas distances i doc_id).
Proof.
  unfold candidate, ranked_candidate.
  destruct (decide (i < length documents)) as [Hd|Hd];
    [destruct (item_lookup documents i Hd) as (c & -> & ->)
    |rewrite (lookup_ge_None_2 documents i) by lia];
  (destruct (decide (i < length metadatas)) as [Hm|Hm];
    [destruct (item_lookup metadatas i Hm) as (m & -> & ->)
    |rewrite (lookup_ge_None_2 metadatas i) by lia]);
  (destruct (decide (i < length distances)) as [Hx|Hx];
    [destruct (item_lookup distances i Hx) as (d & -> & ->)
    |rewrite (lookup_ge_None_2 distances i) by lia]);
  reflexivity.
Qed.

Lemma for_enumerate_ok documents metadatas distances items : forall i combined,
  for_enumerate (candidate documents metadatas distances) i items combined
  = Ok (combined ++ imap (fun j => ranked_candidate documents metadatas distances (i + j)) items).
Proof.
  induction items as [|doc_id items IH]; intros i combined; simpl.
  - by rewrite app_nil_r.
  - rewrite candidate_ok. simpl. rewrite IH, <- app_assoc. simpl.
    rewrite Nat.add_0_r. do 3 f_equal.
    apply imap_ext. intros j x _. simpl. f_equal. lia.
Qed.

Lemma first_or_empty_ok {A} (x : option (list (list A))) :
  first_or_empty x = Ok (inner x).
Proof. by destruct x as [[|l x]|]. Qed.

Lemma has_results_ok vr :
  has_results vr = Ok (bool_decide (inner (qr_ids vr) <> [])).
Proof.
  unfold has_results. by destruct (qr_ids vr) as [[|[|doc_id ids] rest]|].
Qed.

(** [collect] never raises and yields the candidates in index order. *)
Lemma collect_ok vr top_k : collect vr top_k = Ok (candidates vr top_k).
Proof.
  unfold collect, candidates. rewrite has_results_ok. simpl.
  case_bool_decide as Hids.
  - assert (subscript (qr_ids vr) 0 = Ok (inner (qr_ids vr))) as ->.
    { by destruct (qr_ids vr) as [[|ids rest]|]. }
    simpl. rewrite !first_or_empty_ok. simpl.
    by rewrite for_enumerate_ok.
  - by rewrite Hids, slice_to_nil.
Qed.

Lemma combine_ok vr top_k :
  _combine_results vr top_k
  = Ok (slice_to (sort_desc res_score (candidates vr top_k)) top_k).
Proof. unfold _combine_results. by rewrite collect_ok. Qed.

Lemma vector_search_ok self query top_k metadata_filter vr ids rest :
  search (vector_store self) query top_k metadata_filter = Ok vr ->
  qr_ids vr = Some (ids :: rest) ->
  _vector_search self query top_k metadata_filter = Ok vr.
Proof. unfold _vector_search. intros -> Hids. simpl. by rewrite Hids. Qed.

Lemma vector_search_inv self query top_k metadata_filter vr :
  _vector_search self query top_k metadata_filter = Ok vr ->
  search (vector_store self) query top_k metadata_filter = Ok vr /\
  exists ids rest, qr_ids vr = Some (ids :: rest).
Proof.
  unfold _vector_search.
  destruct (search _ _ _ _) as [vr'|e]; simpl; [|done].
  destruct (qr_ids vr') as [[|ids rest]|] eqn:Hids; simpl; try done.
  intros [= ->]. eauto.
Qed.

Lemma retrieve_ok self query top_k metadata_filter vr ids rest :
  search (vector_store self) query top_k metadata_filter = Ok vr ->
  qr_ids vr = Some (ids :: rest) ->
  retrieve self query top_k metadata_filter
  = Ok (slice_to (sort_desc res_score (candidates vr top_k)) top_k).
Proof.
  intros Hs Hids. unfold retrieve.
  rewrite (vector_search_ok _ _ _ _ _ _ _ Hs Hids). simpl. apply combine_ok.
Qed.

Lemma retrieve_inv self query top_k metadata_filter out :
  retrieve self query top_k metadata_filter = Ok out ->
  exists vr, search (vector_store self) query top_k metadata_filter = Ok vr /\
    out = slice_to (sort_desc res_score (candidates vr top_k)) top_k.
Proof.
  unfold retrieve.
  destruct (_vector_search _ _ _ _) as [vr|e] eqn:Hv; simpl; [|done].
  rewrite combine_ok. intros [= <-].
  apply vector_search_inv in Hv as [Hs _]. eauto.
Qed.

(** A failure of the index query is the failure of [retrieve]. *)
Lemma retrieve_raise self query top_k metadata_filter e :
  search (vector_store self) query top_k metadata_filter = Raise e ->
  retrieve self query top_k metadata_filter = Raise e.
Proof. unfold retrieve, _vector_search. by intros ->. Qed.

Lemma candidates_length vr top_k :
  length (candidates vr top_k) = length (slice_to (inner (qr_ids vr)) top_k).
Proof. apply length_imap. Qed.

Lemma candidates_lookup vr top_k i r :
  candidates vr top_k !! i = Some r <->
  exists doc_id, slice_to (inner (qr_ids vr)) top_k !! i = Some doc_id /\
    r = ranked_candidate (inner (qr_documents vr)) (inner (qr_metadatas vr))
                         (inner (qr_distances vr)) i doc_id.
Proof.
  unfold candidates. rewrite list_lookup_imap.
  destruct (slice_to _ _ !! i) as [doc_id|]; simpl; split.
  - intros [= <-]. eauto.
  - by intros (? & [= <-] & ->).
  - done.
  - by intros (? & ? & _).
Qed.

Lemma candidates_ids vr top_k :
  res_id <$> candidates vr top_k = slice_to (inner (qr_ids vr)) top_k.
Proof.
  unfold candidates. generalize (slice_to (inner (qr_ids vr)) top_k). intros l.
  apply list_eq. intros i. rewrite list_lookup_fmap, list_lookup_imap.
  by destruct (l !! i).
Qed.

Lemma candidates_in_unit_interval vr top_k :
  Forall in_unit_interval (inner (qr_distances vr)) ->
  Forall (fun r => in_unit_interval (res_score r)) (candidates vr top_k).
Proof.
  intros Hd. apply Forall_lookup_2. intros i r Hr.
  apply candidates_lookup in Hr as (doc_id & _ & ->). simpl.
  destruct (inner (qr_distances vr) !! i) as [d|] eqn:Hi.
  - eapply Forall_lookup_1 in Hd as [H0 H1]; [|exact Hi].
    unfold in_unit_interval. split; lra.
  - unfold in_unit_interval. split; [by apply Qle_bool_imp_le | by apply Qle_bool_imp_le].
Qed.
End retriever.

Section ranker_claims.
Import Retriever.

(** C1.  For a reply with a non-empty id list, [_combine_results] builds
    one result per candidate of [ids[:top_k]], and the result at position
    [i] has score [1 - distances[i]] when [distances] has an entry at [i]
    and [1.0] otherwise.  With ids [a, b] and distances [0.1, 0.4] (and a
    [top_k] of at least two) the ranked scores are [0.9, 0.6], in the order
    [a, b]. *)
Theorem candidate_scores :
  (forall vr top_k ids rest,
     qr_ids vr = Some (ids :: rest) -> ids <> [] ->
     exists distances combined,
       first_or_empty (qr_distances vr) = Ok distances /\
       collect vr top_k = Ok combined /\
       length combined = length (slice_to ids top_k) /\
       forall i r, combined !! i = Some r ->
         ids !! i = Some (res_id r) /\
         res_score r = match distances !! i with
                       | Some d => (1 - d)%Q
                       | None => 1.0%Q
                       end) /\
  (forall documents metadatas top_k,
     (2 <= top_k)%Z ->
     exists out,
       _combine_results {| qr_ids := Some [["a"; "b"]];
                           qr_documents := documents;
                           qr_metadatas := metadatas;
                           qr_distances := Some [[0.1; 0.4]%Q] |} top_k = Ok out /\
       res_score <$> out = [0.9; 0.6]%Q /\
       res_id <$> out = ["a"; "b"]).
Proof.
  split.
  - intros vr top_k ids rest Hids _.
    exists (inner (qr_distances vr)), (candidates vr top_k).
    split; [apply first_or_empty_ok|]. split; [apply collect_ok|].
    split; [by rewrite candidates_length, Hids|].
    intros i r Hr. apply candidates_lookup in Hr as (doc_id & Hi & ->). simpl.
    split; [|done]. rewrite Hids in Hi. simpl in Hi.
    by eapply prefix_lookup_Some, slice_to_prefix.
  - intros documents metadatas top_k Hk. eexists. split; [apply combine_ok|].
    unfold candidates. simpl.
    assert (forall {A} (a b : A), slice_to [a; b] top_k = [a; b]) as Hall.
    { intros A a b. unfold slice_to. destruct (Z.leb_spec 0 top_k); [|lia].
      apply take_ge. simpl. lia. }
    rewrite Hall. simpl.
    change (Qltb (1 - 0.4) (1 - 0.1)) with true. simpl.
    by rewrite Hall.
Qed.

Lemma candidate_scores_witness :
  (exists distances combined,
     first_or_empty (qr_distances reply_abc) = Ok distances /\
     collect reply_abc 2 = Ok combined /\
     length combined = length (slice_to ["a"; "b"; "c"] 2) /\
     forall i r, combined !! i = Some r ->
       ["a"; "b"; "c"] !! i = Some (res_id r) /\
       res_score r = match distances !! i with
                     | Some d => (1 - d)%Q
                     | None => 1.0%Q
                     end) /\
  (exists out,
     _combine_results reply_ab TOP_K_RESULTS = Ok out /\
     res_score <$> out = [0.9; 0.6]%Q /\
     res_id <$> out = ["a"; "b"]).
Proof.
  split.
  - apply (proj1 candidate_scores reply_abc 2%Z ["a"; "b"; "c"] []);
      [reflexivity | discriminate].
  - apply (proj2 candidate_scores (Some [["first"; "second"]]) None TOP_K_RESULTS).
    unfold TOP_K_RESULTS. lia.
Defined.

(** C2.  When the index answers with distances that all lie in [0, 1],
    the sequence that [retrieve] returns is in non-increasing order of
    score, every score lies in [0, 1], and results with equal scores stand
    in the order of their candidates, which is the index order. *)
Theorem retrieve_ranked self query top_k metadata_filter vr ids rest :
  search (vector_store self) query top_k metadata_filter = Ok vr ->
  qr_ids vr = Some (ids :: rest) ->
  Forall in_unit_interval (inner (qr_distances vr)) ->
  exists combined out,
    collect vr top_k = Ok combined /\
    res_id <$> combined = slice_to ids top_k /\
    retrieve self query top_k metadata_filter = Ok out /\
    StronglySorted (desc res_score) out /\
    Forall (fun r => in_unit_interval (res_score r)) out /\
    keeps_order res_score combined out.
Proof.
  intros Hs Hids Hd. eexists _, _.
  split; [apply collect_ok|].
  split; [by rewrite candidates_ids, Hids|].
  split; [by eapply retrieve_ok|].
  destruct (ranked_prefix res_score (candidates vr top_k) top_k) as [Hsorted Hstable].
  split; [done|]. split; [|done].
  apply Forall_forall. intros r Hr.
  pose proof (candidates_in_unit_interval vr top_k Hd) as Hall.
  rewrite Forall_forall in Hall. apply Hall.
  apply (sort_desc_elem res_score).
  destruct (slice_to_prefix (sort_desc res_score (candidates vr top_k)) top_k) as [k Hk].
  rewrite Hk. apply elem_of_app. by left.
Qed.

Lemma retrieve_ranked_witness :
  exists combined out,
    collect reply_abc 5 = Ok combined /\
    res_id <$> combined = slice_to ["a"; "b"; "c"] 5 /\
    retrieve (index_answering (Ok reply_abc)) "beach" 5 None = Ok out /\
    StronglySorted (desc res_score) out /\
    Forall (fun r => in_unit_interval (res_score r)) out /\
    keeps_order res_score combined out.
Proof.
  apply (retrieve_ranked (index_answering (Ok reply_abc)) "beach" 5 None
                         reply_abc ["a"; "b"; "c"] []); [reflexivity | reflexivity |].
  repeat constructor; simpl; discriminate.
Defined.

(** C3.  [top_k] is a number of results, so it is not negative.  A
    sequence that [retrieve] returns then has at most [top_k] elements, the
    ranked candidates being cut to the first [top_k], and [retrieve]
    returns one whenever the index answers with an id list for the
    query. *)
Theorem retrieve_at_most_top_k self query top_k metadata_filter :
  (0 <= top_k)%Z ->
  (forall out, retrieve self query top_k metadata_filter = Ok out ->
               (Z.of_nat (length out) <= top_k)%Z) /\
  (forall vr ids rest,
     search (vector_store self) query top_k metadata_filter = Ok vr ->
     qr_ids vr = Some (ids :: rest) ->
     returns (retrieve self query top_k metadata_filter)).
Proof.
  intros Hk. split.
  - intros out (vr & _ & ->)%retrieve_inv.
    rewrite slice_to_length_nonneg by done. lia.
  - intros vr ids rest Hs Hids. rewrite (retrieve_ok _ _ _ _ _ _ _ Hs Hids).
    apply returns_ok.
Qed.

Lemma retrieve_at_most_top_k_witness :
  exists out,
    retrieve (index_answering (Ok reply_abc)) "beach" 2 None = Ok out /\
    (Z.of_nat (length out) <= 2)%Z.
Proof.
  destruct (retrieve_at_most_top_k (index_answering (Ok reply_abc)) "beach" 2 None)
    as [Hlength _]; [lia|].
  eexists. split; [reflexivity|]. apply Hlength. reflexivity.
Defined.

(** C4.  When the index answers with an empty id list for the query,
    [retrieve] returns the empty sequence. *)
Theorem retrieve_no_candidates self query top_k metadata_filter vr rest :
  search (vector_store self) query top_k metadata_filter = Ok vr ->
  qr_ids vr = Some ([] :: rest) ->
  retrieve self query top_k metadata_filter = Ok [].
Proof.
  intros Hs Hids. rewrite (retrieve_ok _ _ _ _ _ _ _ Hs Hids).
  unfold candidates. rewrite Hids. unfold inner at 4.
  rewrite slice_to_nil. simpl. by rewrite slice_to_nil.
Qed.

Lemma retrieve_no_candidates_witness :
  retrieve (index_answering (Ok reply_none)) "beach" TOP_K_RESULTS None = Ok [].
Proof.
  apply (retrieve_no_candidates (index_answering (Ok reply_none)) "beach"
                                TOP_K_RESULTS None reply_none []); reflexivity.
Defined.

(** C10.  [_combine_results] never raises, whatever the shape of the
    reply: a field that is [None] or empty counts as the empty list, one
    result is built for every candidate of [ids[:top_k]], and the result
    at position [i] has the content [documents[i]], or [""] when
    [documents] has no entry at [i], and the metadata [metadatas[i]], or
    the empty mapping when [metadatas] has no entry at [i]. *)
Theorem combine_total vr top_k :
  exists documents metadatas distances combined out,
    first_or_empty (qr_documents vr) = Ok documents /\
    first_or_empty (qr_metadatas vr) = Ok metadatas /\
    first_or_empty (qr_distances vr) = Ok distances /\
    collect vr top_k = Ok combined /\
    _combine_results vr top_k = Ok out /\
    (qr_documents vr = None -> documents = []) /\
    (qr_metadatas vr = None -> metadatas = []) /\
    (qr_distances vr = None -> distances = []) /\
    (forall ids rest, qr_ids vr = Some (ids :: rest) ->
       length combined = length (slice_to ids top_k)) /\
    forall i r, combined !! i = Some r ->
      res_content r = default "" (documents !! i) /\
      res_metadata r = default ∅ (metadatas !! i) /\
      res_source r = "vector".
Proof.
  exists (inner (qr_documents vr)), (inner (qr_metadatas vr)),
         (inner (qr_distances vr)), (candidates vr top_k).
  eexists. do 3 (split; [apply first_or_empty_ok|]).
  split; [apply collect_ok|]. split; [apply combine_ok|].
  do 3 (split; [by intros ->|]).
  split.
  - intros ids rest Hids. by rewrite candidates_length, Hids.
  - intros i r Hr. by apply candidates_lookup in Hr as (doc_id & _ & ->).
Qed.
Lemma combine_total_witness :
  exists metadatas combined,
    first_or_empty (qr_metadatas reply_abc) = Ok metadatas /\
    metadatas = [] /\
    collect reply_abc 5 = Ok combined /\
    length combined = 3.
Proof.
  destruct (combine_total reply_abc 5)
    as (documents & metadatas & distances & combined & out
        & _ & Hm & _ & Hc & _ & _ & Hnone & _ & Hlength & _).
  exists metadatas, combined.
  split; [exact Hm|]. split; [apply Hnone; reflexivity|]. split; [exact Hc|].
  apply (Hlength ["a"; "b"; "c"] []). reflexivity.
Defined.
End ranker_claims.

(** ** Confidence *)

Section confidence.
Import App.

Lemma fold_max_spec {A} (key : A -> Q) (l : list A) : forall x,
  let best := fold_left (fun best y => if Qltb (key best) (key y) then y else best) l x in
  best ∈ x :: l /\ forall y, y ∈ x :: l -> (key y <= key best)%Q.
Proof.
  induction l as [|z l IH]; intros x; simpl.
  - split; [apply list_elem_of_singleton; done|].
    intros y ->%list_elem_of_singleton. apply Qle_refl.
  - destruct (Qltb (key x) (key z)) eqn:Hxz.
    + apply Qltb_true in Hxz. destruct (IH z) as [Hin Hmax]. split.
      * apply elem_of_cons. right. exact Hin.
      * intros y [-> | Hy]%elem_of_cons; [|by apply Hmax].
        eapply Qle_trans; [apply Qlt_le_weak, Hxz|].
        apply Hmax, elem_of_cons. by left.
    + apply Qltb_false in Hxz. destruct (IH x) as [Hin Hmax]. split.
      * apply elem_of_cons in Hin as [-> | Hin]; [by apply elem_of_cons; left|].
        apply elem_of_cons. right. apply elem_of_cons. by right.
      * intros y [-> | [-> | Hy]%elem_of_cons]%elem_of_cons.
        -- apply Hmax, elem_of_cons. by left.
        -- eapply Qle_trans; [exact Hxz|]. apply Hmax, elem_of_cons. by left.
        -- apply Hmax, elem_of_cons. by right.
Qed.

(** [max] of a non-empty sequence is one of its elements and bounds all. *)
Lemma max_by_spec {A} (key : A -> Q) (l : list A) :
  l <> [] ->
  exists best, max_by key l = Ok best /\ best ∈ l /\
    forall y, y ∈ l -> (key y <= key best)%Q.
Proof.
  destruct l as [|x l]; [done|]. intros _. eexists. split; [reflexivity|].
  apply fold_max_spec.
Qed.

Lemma is_max_score_unique documents b1 b2 :
  is_max_score documents b1 -> is_max_score documents b2 -> (b1 == b2)%Q.
Proof.
  intros [(r1 & Hr1 & <-) H1] [(r2 & Hr2 & <-) H2].
  apply Qle_antisym; auto.
Qed.

Lemma min2_Qmin a b : (min2 a b == Qmin a b)%Q.
Proof.
  unfold min2. destruct (Qltb b a) eqn:Hba.
  - apply Qltb_true in Hba. symmetry. apply Q.min_r. by apply Qlt_le_weak.
  - apply Qltb_false in Hba. symmetry. by apply Q.min_l.
Qed.

Lemma round_half_even_mono x y :
  (x <= y)%Q -> (round_half_even x <= round_half_even y)%Z.
Proof.
  intros Hxy. unfold round_half_even.
  pose proof (Qfloor_resp_le x y Hxy) as Hf.
  pose proof (Qfloor_le y) as Hy0. pose proof (Qlt_floor y) as Hy1.
  pose proof (Qfloor_le x) as Hx0. pose proof (Qlt_floor x) as Hx1.
  destruct (Z.eq_dec (Qfloor x) (Qfloor y)) as [Heq|Hne].
  - rewrite <- Heq in *.
    destruct (Qcompare_spec (x - inject_Z (Qfloor x)) (1 # 2)) as [Hx|Hx|Hx];
    destruct (Qcompare_spec (y - inject_Z (Qfloor x)) (1 # 2)) as [Hy|Hy|Hy];
      try (destruct (Z.even (Qfloor x))); try lia; exfalso; lra.
  - assert (Qfloor x + 1 <= Qfloor y)%Z by lia.
    destruct (x - inject_Z (Qfloor x) ?= 1 # 2)%Q, (y - inject_Z (Qfloor y) ?= 1 # 2)%Q;
      repeat (destruct (Z.even _)); lia.
Qed.

Lemma round_mono x y ndigits : (x <= y)%Q -> (round x ndigits <= round y ndigits)%Q.
Proof.
  intros Hxy. unfold round.
  assert (0 < inject_Z (10 ^ Z.of_nat ndigits))%Q as Hpos.
  { rewrite <- (Zlt_Qlt 0). apply Z.pow_pos_nonneg; lia. }
  apply Qmult_le_compat_r; [|by apply Qlt_le_weak, Qinv_lt_0_compat].
  rewrite <- Zle_Qle. apply round_half_even_mono.
  apply Qmult_le_compat_r; [done | by apply Qlt_le_weak].
Qed.

(** Rounding does not depend on the representation of a rational. *)
Lemma round_proper x y ndigits : (x == y)%Q -> round x ndigits = round y ndigits.
Proof.
  intros Hxy. unfold round. do 2 f_equal.
  assert (x * inject_Z (10 ^ Z.of_nat ndigits) == y * inject_Z (10 ^ Z.of_nat ndigits))%Q
    as Heq by (by rewrite Hxy).
  apply Z.le_antisymm; apply round_half_even_mono; rewrite Heq; apply Qle_refl.
Qed.

Lemma calculate_confidence_ok documents best :
  is_max_score documents best ->
  _calculate_confidence documents = Ok (round (Qmin 100 (100 * best)) 2).
Proof.
  intros Hbest. unfold _calculate_confidence.
  destruct (decide (documents = [])) as [->|Hne].
  { destruct Hbest as [(r & Hr & _) _]. by apply elem_of_nil in Hr. }
  destruct (max_by_spec (fun s : Q => s) (res_score <$> documents)) as (b & -> & Hin & Hmax).
  { by destruct documents. }
  simpl. f_equal. apply round_proper. rewrite min2_Qmin.
  assert (is_max_score documents b) as Hb.
  { split.
    - apply list_elem_of_fmap in Hin as (r & -> & Hr). eauto.
    - intros r Hr. apply Hmax, list_elem_of_fmap. eauto. }
  rewrite (is_max_score_unique _ _ _ Hb Hbest).
  assert (100.0 == 100)%Q as -> by reflexivity.
  by rewrite (Qmult_comm best).
Qed.

(** C5, as stated, fails: the value is rounded to two decimals, so a best
    score of 0.123456 gives 12.35 and not 12.3456. *)
Lemma confidence_not_exact :
  ~ (forall documents best, is_max_score documents best ->
       exists c, _calculate_confidence documents = Ok c /\
                 (c == Qmin 100 (100 * best))%Q).
Proof.
  intros H. destruct (H [scored 0.123456%Q] 0.123456%Q) as (c & Hc & Heq).
  - split.
    + exists (scored 0.123456%Q). split; [apply list_elem_of_singleton|]; done.
    + intros r ->%list_elem_of_singleton. apply Qle_refl.
  - vm_compute in Hc. injection Hc as <-. vm_compute in Heq. discriminate.
Qed.

(** C5, amended.  [_calculate_confidence] returns 0.0 for an empty list;
    a non-empty list has a greatest score, and the value returned is
    min(100, 100 × that score) rounded to two decimals, halves to the even
    neighbour; the value is monotonic non-decreasing in the greatest
    score. *)
Theorem confidence_rounded :
  _calculate_confidence [] = Ok 0.0%Q /\
  (forall documents, documents <> [] -> exists best, is_max_score documents best) /\
  (forall documents best, is_max_score documents best ->
     _calculate_confidence documents = Ok (round (Qmin 100 (100 * best)) 2)) /\
  (forall documents1 documents2 best1 best2 c1 c2,
     is_max_score documents1 best1 -> is_max_score documents2 best2 ->
     (best1 <= best2)%Q ->
     _calculate_confidence documents1 = Ok c1 ->
     _calculate_confidence documents2 = Ok c2 ->
     (c1 <= c2)%Q).
Proof.
  split; [reflexivity|]. split; [|split].
  - intros documents Hne.
    destruct (max_by_spec res_score documents Hne) as (r & _ & Hr & Hmax).
    exists (res_score r). split; eauto.
  - apply calculate_confidence_ok.
  - intros d1 d2 b1 b2 c1 c2 H1 H2 Hle.
    rewrite (calculate_confidence_ok _ _ H1), (calculate_confidence_ok _ _ H2).
    intros [= <-] [= <-]. apply round_mono.
    apply Q.min_le_compat; [apply Qle_refl|].
    apply Qmult_le_l; [reflexivity | done].
Qed.

Lemma confidence_rounded_witness :
  _calculate_confidence [scored 0.9; scored 0.6]%Q = Ok (round (Qmin 100 (100 * 0.9)) 2) /\
  (exists c1 c2,
     _calculate_confidence [scored 0.4]%Q = Ok c1 /\
     _calculate_confidence [scored 0.9; scored 0.6]%Q = Ok c2 /\
     (c1 <= c2)%Q).
Proof.
  assert (is_max_score [scored 0.9; scored 0.6]%Q 0.9%Q) as H2.
  { split.
    - exists (scored 0.9%Q). split; [apply elem_of_cons; by left | reflexivity].
    - intros r [-> | ->%list_elem_of_singleton]%elem_of_cons; simpl; discriminate. }
  assert (is_max_score [scored 0.4]%Q 0.4%Q) as H1.
  { split.
    - exists (scored 0.4%Q). split; [apply list_elem_of_singleton | ]; reflexivity.
    - intros r ->%list_elem_of_singleton. simpl. discriminate. }
  destruct confidence_rounded as (_ & _ & Hval & Hmono). split.
  - apply (Hval _ _ H2).
  - eexists _, _. split; [reflexivity|]. split; [reflexivity|].
    apply (Hmono _ _ _ _ _ _ H1 H2); [discriminate | reflexivity | reflexivity].
Defined.
End confidence.

(** ** Timers *)

Section timers.
Import Metrics.
Implicit Types (self : MetricsTracker) (sys : Sys).

Lemma start_timer_run timer_name self sys :
  start_timer timer_name self sys
  = (Ok tt, set_timers <[timer_name := clock sys (ticks sys)]> self, tick sys).
Proof. reflexivity. Qed.

Lemma stop_timer_unknown timer_name self sys :
  current_timers self !! timer_name = None ->
  stop_timer timer_name self sys = (Ok 0.0%Q, self, warn (not_found timer_name) sys).
Proof.
  intros Hnone. unfold stop_timer, mbind, eff_bind, get.
  by rewrite decide_True.
Qed.

Lemma stop_timer_running timer_name self sys started :
  current_timers self !! timer_name = Some started ->
  stop_timer timer_name self sys
  = (Ok (clock sys (ticks sys) - started)%Q, set_timers (delete timer_name) self, tick sys).
Proof.
  intros Hsome. unfold stop_timer, mbind, eff_bind, get.
  rewrite decide_False by congruence. simpl.
  unfold getitem, delitem, mbind, eff_bind, get. rewrite Hsome. simpl.
  by rewrite Hsome.
Qed.

(** Neither subscript of [stop_timer] can fail. *)
Lemma stop_timer_total timer_name : total (stop_timer timer_name).
Proof.
  intros self sys. destruct (current_timers self !! timer_name) as [started|] eqn:Ht.
  - rewrite (stop_timer_running _ _ _ _ Ht). apply returns_ok.
  - rewrite (stop_timer_unknown _ _ _ Ht). apply returns_ok.
Qed.

Lemma start_timer_total timer_name : total (start_timer timer_name).
Proof. intros self sys. apply returns_ok. Qed.

Lemma record_metrics_total metrics : total (record_metrics metrics).
Proof. intros self sys. apply returns_ok. Qed.

(** C8.  Stopping a timer that is not running returns 0.0 without raising:
    the tracker is unchanged, the clock is not read, and one warning is
    logged.  Stopping a running timer returns the clock reading minus the
    reading that [start_timer] stored under its name, and removes it. *)
Theorem stop_timer_elapsed timer_name self sys :
  (current_timers self !! timer_name = None ->
     stop_timer timer_name self sys
     = (Ok 0.0%Q, self, warn (not_found timer_name) sys)) /\
  (forall started, current_timers self !! timer_name = Some started ->
     stop_timer timer_name self sys
     = (Ok (clock sys (ticks sys) - started)%Q,
        set_timers (delete timer_name) self, tick sys)) /\
  (let started := start_timer timer_name self sys in
   value_of started = Ok tt /\
   current_timers (state_of started) !! timer_name = Some (clock sys (ticks sys)) /\
   sys_of started = tick sys).
Proof.
  split; [apply stop_timer_unknown|]. split; [apply stop_timer_running|].
  rewrite start_timer_run. simpl. repeat split. apply lookup_insert_eq.
Qed.

Lemma stop_timer_elapsed_witness :
  stop_timer "total_response" init noon
  = (Ok 0.0%Q, init, warn (not_found "total_response") noon) /\
  stop_timer "total_response" (state_of (start_timer "total_response" init noon)) (tick noon)
  = (Ok (1 - 0)%Q, set_timers (delete "total_response")
                              (state_of (start_timer "total_response" init noon)),
     tick (tick noon)).
Proof.
  split.
  - apply (proj1 (stop_timer_elapsed "total_response" init noon)). reflexivity.
  - apply (proj1 (proj2 (stop_timer_elapsed "total_response"
             (state_of (start_timer "total_response" init noon)) (tick noon)))).
    reflexivity.
Defined.
End timers.

(** ** Methods that never raise *)

Section totality.
Context {S : Type}.

Lemma bind_total {A B} (m : Eff S A) (f : A -> Eff S B)
    (P : result B * S * Sys -> Prop) s sys :
  total m -> (forall x s' sys', P (f x s' sys')) -> P ((m ≫= f) s sys).
Proof.
  intros Hm Hf. destruct (Hm s sys) as [x Hx].
  unfold mbind, eff_bind. destruct (m s sys) as [[r s'] sys'].
  unfold value_of in Hx. simpl in Hx. subst r. apply Hf.
Qed.

Lemma ret_total {A} (x : A) : total (mret x : Eff S A).
Proof. intros s sys. apply returns_ok. Qed.

Lemma modify_total (f : S -> S) : total (modify f).
Proof. intros s sys. apply returns_ok. Qed.

Lemma time_time_total : total (time_time : Eff S Q).
Proof. intros s sys. apply returns_ok. Qed.

Lemma on_total {T A} (field : S -> T) (set : T -> S -> S) (m : Eff T A) :
  total m -> total (on field set m).
Proof.
  intros Hm s sys. destruct (Hm (field s) sys) as [x Hx].
  unfold on. destruct (m (field s) sys) as [[r t'] sys'].
  unfold value_of in *. simpl in *. subst r. apply returns_ok.
Qed.

Lemma try_except_returns {A} (m : Eff S A) handler s sys x :
  value_of (m s sys) = Ok x -> try_except m handler s sys = m s sys.
Proof.
  unfold try_except, value_of. destruct (m s sys) as [[r s'] sys']. simpl.
  by intros ->.
Qed.
End totality.

Ltac run_total :=
  lazymatch goal with
  | |- context [mbind ?f ?m ?s ?sys] =>
      pattern (mbind f m s sys); apply bind_total; [|intros ? ? ?]
  end.

(** ** The conversation context *)

Section context.
Import Context.
Implicit Types (cm : ContextManager) (sys : Sys) (c : Call) (cs : list Call).

Lemma add_user_message_total content metadata : total (add_user_message content metadata).
Proof. intros cm sys. apply returns_ok. Qed.

Lemma add_assistant_message_total content metadata :
  total (add_assistant_message content metadata).
Proof. intros cm sys. apply returns_ok. Qed.

Lemma set_current_query_total query : total (set_current_query query).
Proof. intros cm sys. apply returns_ok. Qed.

Lemma add_retrieved_documents_run documents : forall cm sys,
  add_retrieved_documents documents cm sys
  = (Ok tt,
     {| max_context_length := max_context_length cm;
        conversation_history := conversation_history cm;
        retrieved_documents := retrieved_documents cm ++ (of_dict <$> documents);
        current_query := current_query cm |},
     sys).
Proof.
  induction documents as [|doc documents IH]; intros cm sys; simpl.
  - rewrite app_nil_r. by destruct cm.
  - unfold mbind, eff_bind. simpl. rewrite IH. simpl.
    by rewrite <- app_assoc.
Qed.

Lemma add_retrieved_documents_total documents : total (add_retrieved_documents documents).
Proof. intros cm sys. rewrite add_retrieved_documents_run. apply returns_ok. Qed.

(** [get_context_window] changes nothing and never raises. *)
Lemma get_context_window_run cm sys :
  get_context_window cm sys
  = (Ok {| cw_conversation_history :=
             if decide (length (conversation_history cm) <= 10)
             then conversation_history cm
             else slice_last 10 (conversation_history cm);
           cw_retrieved_documents :=
             slice_to (sort_desc doc_score (retrieved_documents cm)) 3;
           cw_current_query := current_query cm |},
     cm, sys).
Proof.
  unfold get_context_window, _trim_conversation_history, mbind, eff_bind, get.
  by destruct (decide (length (conversation_history cm) <= 10)).
Qed.

Lemma get_context_summary_run cm sys :
  exists summary, get_context_summary cm sys = (Ok summary, cm, sys).
Proof. eexists. reflexivity. Qed.

(** What a call does to the two lists of the context. *)
Lemma call_run c cm sys :
  exists cm' sys',
    call c cm sys = (Ok tt, cm', sys') /\
    turn <$> conversation_history cm' = record_turn (turn <$> conversation_history cm) c /\
    (forall acc, retrieved_documents cm = of_dict <$> acc ->
                 retrieved_documents cm' = of_dict <$> record_documents acc c) /\
    (c <> ClearContext ->
     exists added, retrieved_documents cm' = retrieved_documents cm ++ added).
Proof.
  destruct c; simpl.
  - eexists _, _. split; [reflexivity|]. simpl. rewrite fmap_app.
    repeat split; [done|]. intros _. exists []. by rewrite app_nil_r.
  - eexists _, _. split; [reflexivity|]. simpl. rewrite fmap_app.
    repeat split; [done|]. intros _. exists []. by rewrite app_nil_r.
  - eexists _, _. split; [reflexivity|]. simpl.
    repeat split; [done|]. intros _. exists []. by rewrite app_nil_r.
  - rewrite add_retrieved_documents_run. eexists _, _. split; [reflexivity|]. simpl.
    repeat split.
    + intros acc ->. by rewrite fmap_app.
    + intros _. by eexists.
  - unfold mbind, eff_bind. rewrite get_context_window_run.
    eexists _, _. split; [reflexivity|].
    repeat split; [done|]. intros _. exists []. by rewrite app_nil_r.
  - eexists _, _. split; [reflexivity|]. simpl. repeat split; done.
  - eexists _, _. split; [reflexivity|]. simpl.
    repeat split; [done|]. intros _. exists []. by rewrite app_nil_r.
Qed.

Lemma calls_run cs : forall cm sys turns documents,
  turn <$> conversation_history cm = turns ->
  retrieved_documents cm = of_dict <$> documents ->
  exists cm' sys',
    calls cs cm sys = (Ok tt, cm', sys') /\
    turn <$> conversation_history cm' = foldl record_turn turns cs /\
    retrieved_documents cm' = of_dict <$> foldl record_documents documents cs.
Proof.
  induction cs as [|c cs IH]; intros cm sys turns documents Ht Hd; simpl.
  - by eexists _, _.
  - destruct (call_run c cm sys) as (cm1 & sys1 & Hrun & Ht1 & Hd1 & _).
    unfold mbind, eff_bind. rewrite Hrun.
    apply IH; [by rewrite Ht1, Ht | by apply Hd1].
Qed.

Lemma window_history_length (h : list Message) :
  length (if decide (length h <= 10) then h else slice_last 10 h) = 10 `min` length h.
Proof. case_decide; [lia | apply slice_last_length]. Qed.

Lemma window_history_recent (h : list Message) :
  (if decide (length h <= 10) then h else slice_last 10 h) = drop (length h - 10) h.
Proof.
  case_decide as Hlen; [|done].
  by replace (length h - 10) with 0 by lia.
Qed.
End context.

Section context_claims.
Import Context.

(** C7.  After any sequence of calls on a new context manager, the window
    holds at most 10 turns and at most 3 documents.  Its history is the
    last 10 of the turns appended since the last [clear_context] (all of
    them when there are fewer), so exactly 10 once more than 10 were
    appended; its documents are 3 of the stored ones (all when there are
    fewer), in decreasing order of score, and no other stored document has a
    greater score. *)
Theorem context_window_bounded cs max_length sys :
  let after := calls cs (init max_length) sys in
  let cm := state_of after in
  let turns := turns_since_clear cs in
  exists window,
    value_of after = Ok tt /\
    get_context_window cm (sys_of after) = (Ok window, cm, sys_of after) /\
    turn <$> conversation_history cm = turns /\
    length (cw_conversation_history window) <= 10 /\
    length (cw_retrieved_documents window) <= 3 /\
    turn <$> cw_conversation_history window = drop (length turns - 10) turns /\
    (10 < length turns -> length (cw_conversation_history window) = 10) /\
    StronglySorted (desc doc_score) (cw_retrieved_documents window) /\
    top_of doc_score 3 (retrieved_documents cm) (cw_retrieved_documents window).
Proof.
  intros after cm turns.
  destruct (calls_run cs (init max_length) sys [] [] eq_refl eq_refl)
    as (cm' & sys' & Hrun & Hturns & _).
  subst after cm. rewrite Hrun. unfold state_of, sys_of, value_of. simpl.
  fold (turns_since_clear cs) in Hturns. fold turns in Hturns.
  eexists. split; [done|]. split; [apply get_context_window_run|]. simpl.
  assert (length (conversation_history cm') = length turns) as Hlen.
  { by rewrite <- Hturns, length_fmap. }
  split; [done|].
  split; [rewrite window_history_length; lia|].
  split; [rewrite (slice_to_nat _ 3), length_take; lia|].
  split; [by rewrite window_history_recent, fmap_drop, Hturns, Hlen|].
  split; [rewrite window_history_length; lia|].
  split.
  - apply (ranked_prefix doc_score (retrieved_documents cm') 3).
  - rewrite (slice_to_nat _ 3). apply take_sorted_top.
Qed.

Lemma context_window_bounded_witness :
  exists window,
    value_of (get_context_window (state_of (calls fifteen_turns (init 4096) noon))
                                 (sys_of (calls fifteen_turns (init 4096) noon)))
    = Ok window /\
    length (cw_conversation_history window) = 10 /\
    turn <$> cw_conversation_history window = drop 5 (turns_since_clear fifteen_turns).
Proof.
  destruct (context_window_bounded fifteen_turns 4096 noon)
    as (window & _ & Hrun & _ & _ & _ & Hrecent & Hlen & _).
  exists window. split; [by rewrite Hrun|]. split.
  - apply Hlen. vm_compute. lia.
  - exact Hrecent.
Defined.

(** C9.  No call other than [clear_context] removes a stored document:
    [add_retrieved_documents] appends its documents to the stored ones, and
    the stored list is the concatenation of everything added since the last
    [clear_context].  The documents of the window are the top 3 by score of
    that whole list: a document of an earlier query that scores higher
    stands before the ones of the latest query. *)
Theorem documents_accumulate :
  (forall c cm sys, c <> ClearContext ->
     exists added,
       retrieved_documents (state_of (call c cm sys)) = retrieved_documents cm ++ added) /\
  (forall documents cm sys,
     retrieved_documents (state_of (add_retrieved_documents documents cm sys))
     = retrieved_documents cm ++ (of_dict <$> documents)) /\
  (forall cs max_length sys,
     retrieved_documents (state_of (calls cs (init max_length) sys))
     = of_dict <$> documents_since_clear cs) /\
  (forall cm sys,
     exists window,
       get_context_window cm sys = (Ok window, cm, sys) /\
       cw_retrieved_documents window
       = take 3 (sort_desc doc_score (retrieved_documents cm)) /\
       top_of doc_score 3 (retrieved_documents cm) (cw_retrieved_documents window)) /\
  (exists window,
     value_of ((calls [AddRetrievedDocuments [doc_scored "old" 0.9%Q];
                       AddRetrievedDocuments [doc_scored "new" 0.5%Q]];;
                get_context_window) (init 4096) noon) = Ok window /\
     doc_id <$> cw_retrieved_documents window = ["old"; "new"]).
Proof.
  split; [|split; [|split; [|split]]].
  - intros c cm sys Hc.
    destruct (call_run c cm sys) as (cm' & sys' & -> & _ & _ & Hadd). by apply Hadd.
  - intros documents cm sys. by rewrite add_retrieved_documents_run.
  - intros cs max_length sys.
    destruct (calls_run cs (init max_length) sys [] [] eq_refl eq_refl)
      as (cm' & sys' & -> & _ & Hdocs).
    exact Hdocs.
  - intros cm sys. eexists. split; [apply get_context_window_run|]. simpl.
    rewrite (slice_to_nat _ 3). split; [done | apply take_sorted_top].
  - eexists. split; reflexivity.
Qed.

Lemma documents_accumulate_witness :
  exists added,
    retrieved_documents
      (state_of (call (AddRetrievedDocuments [doc_scored "new" 0.5%Q]) (init 4096) noon))
    = retrieved_documents (init 4096) ++ added.
Proof.
  apply (proj1 documents_accumulate). discriminate.
Defined.
End context_claims.

(** ** The chat endpoint *)

Section chat_claims.
Import Retriever App.

Lemma on_metrics_total {A} (m : Eff Metrics.MetricsTracker A) : total m -> total (on_metrics m).
Proof. apply on_total. Qed.

Lemma on_context_total {A} (m : Eff Context.ContextManager A) : total m -> total (on_context m).
Proof. apply on_total. Qed.

Lemma attempt_lift {S A B} (r : result A) (f : result A -> Eff S B) s sys :
  (attempt (lift r) ≫= f) s sys = f r s sys.
Proof. reflexivity. Qed.

(** Both fallback branches answer, whatever the state of the timers. *)
Lemma fallback_ok user_query document_retrieval_time c w sys :
  exists r, value_of (fallback user_query document_retrieval_time c w sys) = Ok r /\
            is_fallback user_query c r.
Proof.
  unfold fallback.
  run_total; [apply on_metrics_total, stop_timer_total|].
  run_total; [apply time_time_total|].
  run_total; [apply on_metrics_total, record_metrics_total|].
  eexists. split; [reflexivity|]. by repeat split.
Qed.

(** The part of [chat] inside the outer [try], for a given message. *)
Lemma chat_without_documents retriever query user_query w sys :
  query !! "message" = Some user_query -> user_query <> "" ->
  match retrieve retriever user_query TOP_K_RESULTS None with
  | Raise e =>
      exists r, value_of (chat retriever query w sys) = Ok r /\ is_fallback user_query 80.0%Q r
  | Ok [] =>
      exists r, value_of (chat retriever query w sys) = Ok r /\ is_fallback user_query 75.0%Q r
  | Ok _ => True
  end.
Proof.
  intros Hq Hne.
  destruct (retrieve retriever user_query TOP_K_RESULTS None) as [[|doc docs]|e] eqn:Hr;
    [|done|].
  - unfold chat. rewrite Hq. cbv zeta.
    change (default "" (Some user_query)) with user_query.
    rewrite decide_False by done.
    match goal with
    | |- context [try_except ?m ?h w sys] =>
        assert (exists r, value_of (m w sys) = Ok r /\ is_fallback user_query 75.0%Q r)
          as (r & Hv & Hf);
        [|exists r; by rewrite (try_except_returns m h w sys r Hv)]
    end.
    do 2 (run_total; [apply on_metrics_total, start_timer_total|]).
    run_total; [apply on_context_total, set_current_query_total|].
    run_total; [apply on_context_total, add_user_message_total|].
    run_total; [apply on_metrics_total, stop_timer_total|].
    run_total; [apply on_metrics_total, start_timer_total|].
    rewrite attempt_lift, Hr.
    run_total; [apply on_metrics_total, stop_timer_total|].
    rewrite decide_True by done. apply fallback_ok.
  - unfold chat. rewrite Hq. cbv zeta.
    change (default "" (Some user_query)) with user_query.
    rewrite decide_False by done.
    match goal with
    | |- context [try_except ?m ?h w sys] =>
        assert (exists r, value_of (m w sys) = Ok r /\ is_fallback user_query 80.0%Q r)
          as (r & Hv & Hf);
        [|exists r; by rewrite (try_except_returns m h w sys r Hv)]
    end.
    do 2 (run_total; [apply on_metrics_total, start_timer_total|]).
    run_total; [apply on_context_total, set_current_query_total|].
    run_total; [apply on_context_total, add_user_message_total|].
    run_total; [apply on_metrics_total, stop_timer_total|].
    run_total; [apply on_metrics_total, start_timer_total|].
    rewrite attempt_lift, Hr. apply fallback_ok.
Qed.

(** C6.  For a request with a message, [chat] answers with the fallback
    guidance, [documents_retrieved] 0 and no retrieved documents, at
    confidence 80.0 when retrieval raises (in particular when the index
    query raises) and at confidence 75.0 when retrieval yields nothing (in
    particular when the index answers with an empty id list). *)
Theorem chat_fallback retriever query user_query w sys :
  query !! "message" = Some user_query -> user_query <> "" ->
  (forall e, retrieve retriever user_query TOP_K_RESULTS None = Raise e ->
     exists r, value_of (chat retriever query w sys) = Ok r /\
               is_fallback user_query 80.0%Q r) /\
  (retrieve retriever user_query TOP_K_RESULTS None = Ok [] ->
     exists r, value_of (chat retriever query w sys) = Ok r /\
               is_fallback user_query 75.0%Q r) /\
  (forall e, search (vector_store retriever) user_query TOP_K_RESULTS None = Raise e ->
     exists r, value_of (chat retriever query w sys) = Ok r /\
               is_fallback user_query 80.0%Q r) /\
  (forall vr rest,
     search (vector_store retriever) user_query TOP_K_RESULTS None = Ok vr ->
     qr_ids vr = Some ([] :: rest) ->
     exists r, value_of (chat retriever query w sys) = Ok r /\
               is_fallback user_query 75.0%Q r).
Proof.
  intros Hq Hne.
  pose proof (chat_without_documents retriever query user_query w sys Hq Hne) as Hcases.
  repeat split.
  - intros e He. by rewrite He in Hcases.
  - intros He. by rewrite He in Hcases.
  - intros e He%retrieve_raise. by rewrite He in Hcases.
  - intros vr rest Hs Hids.
    assert (retrieve retriever user_query TOP_K_RESULTS None = Ok []) as He.
    { rewrite (retrieve_ok _ _ _ _ _ _ _ Hs Hids).
      unfold candidates. rewrite Hids. unfold inner at 4.
      rewrite slice_to_nil. simpl. by rewrite slice_to_nil. }
    by rewrite He in Hcases.
Qed.

Lemma chat_fallback_witness :
  (exists r, value_of (chat (index_answering (Raise (StoreError "index unavailable")))
                            hotel_request fresh noon) = Ok r /\
             is_fallback "any hotel?" 80.0%Q r) /\
  (exists r, value_of (chat (index_answering (Ok reply_none))
                            hotel_request fresh noon) = Ok r /\
             is_fallback "any hotel?" 75.0%Q r).
Proof.
  split.
  - destruct (chat_fallback (index_answering (Raise (StoreError "index unavailable")))
                            hotel_request "any hotel?" fresh noon)
      as (_ & _ & Hraise & _); [vm_compute; reflexivity | discriminate |].
    apply (Hraise (StoreError "index unavailable")). reflexivity.
  - destruct (chat_fallback (index_answering (Ok reply_none))
                            hotel_request "any hotel?" fresh noon)
      as (_ & _ & _ & Hnone); [vm_compute; reflexivity | discriminate |].
    apply (Hnone reply_none []); reflexivity.
Defined.
End chat_claims.

(** * Further properties *)

(** ** Timers and the metrics history *)

Section metrics_more.
Import Metrics.
Implicit Types (self : MetricsTracker) (sys : Sys).

(** X1.  [stop_timer] leaves no timer of that name: whatever the tracker,
    the name is not running afterwards, so stopping it once more returns
    0.0 and logs the warning. *)
Theorem stop_timer_once timer_name self sys :
  let stopped := stop_timer timer_name self sys in
  current_timers (state_of stopped) !! timer_name = None /\
  stop_timer timer_name (state_of stopped) (sys_of stopped)
  = (Ok 0.0%Q, state_of stopped, warn (not_found timer_name) (sys_of stopped)).
Proof.
  intros stopped.
  assert (current_timers (state_of stopped) !! timer_name = None) as Hgone.
  { subst stopped. destruct (current_timers self !! timer_name) as [started|] eqn:Ht.
    - rewrite (stop_timer_running _ _ _ _ Ht). apply lookup_delete_eq.
    - by rewrite (stop_timer_unknown _ _ _ Ht). }
  split; [exact Hgone | by apply stop_timer_unknown].
Qed.

(** X2.  Timers of different names do not interfere, and neither
    [start_timer] nor [stop_timer] touches the recorded history. *)
Theorem timers_independent timer_name other self sys :
  timer_name <> other ->
  let started := state_of (start_timer timer_name self sys) in
  let stopped := state_of (stop_timer timer_name self sys) in
  current_timers started !! other = current_timers self !! other /\
  current_timers stopped !! other = current_timers self !! other /\
  metrics_history started = metrics_history self /\
  metrics_history stopped = metrics_history self.
Proof.
  intros Hne started stopped. subst started stopped.
  rewrite start_timer_run.
  split; [by apply lookup_insert_ne|].
  destruct (current_timers self !! timer_name) as [t|] eqn:Ht.
  - rewrite (stop_timer_running _ _ _ _ Ht). split; [by apply lookup_delete_ne | done].
  - by rewrite (stop_timer_unknown _ _ _ Ht).
Qed.

Lemma timers_independent_witness :
  current_timers (state_of (start_timer "total_response" init noon)) !! "query_processing"
  = current_timers init !! "query_processing".
Proof.
  apply (timers_independent "total_response" "query_processing" init noon). discriminate.
Defined.

(** X3.  Starting a running timer starts it anew: the time returned by
    [stop_timer] is measured from the latest [start_timer] of that name. *)
Theorem start_timer_restarts timer_name self sys :
  let first := start_timer timer_name self sys in
  let second := start_timer timer_name (state_of first) (sys_of first) in
  stop_timer timer_name (state_of second) (sys_of second)
  = (Ok (clock sys (2 + ticks sys) - clock sys (1 + ticks sys))%Q,
     set_timers (delete timer_name) (state_of second), tick (sys_of second)).
Proof.
  intros first second. subst first second. rewrite !start_timer_run.
  unfold state_of, sys_of. simpl. apply stop_timer_running. simpl.
  apply lookup_insert_eq.
Qed.

Lemma last_item_snoc {A} (l : list A) x : last_item (l ++ [x]) = Ok x.
Proof. unfold last_item. by rewrite last_snoc. Qed.

Lemma get_latest_metrics_total : total get_latest_metrics.
Proof.
  intros self sys. unfold get_latest_metrics, mbind, eff_bind, get.
  destruct (decide (metrics_history self = [])) as [Hnil|Hcons]; [apply returns_ok|].
  destruct (metrics_history self) as [|m h _] using rev_ind; [done|].
  unfold lift. rewrite last_item_snoc. apply returns_ok.
Qed.

(** X4.  [get_latest_metrics] returns [None] while nothing is recorded and
    otherwise the record that [record_metrics] stored last; it changes
    nothing and never raises. *)
Theorem latest_is_last_recorded :
  (forall self sys, metrics_history self = [] ->
     get_latest_metrics self sys = (Ok None, self, sys)) /\
  (forall metrics self sys sys',
     let recorded := state_of (record_metrics metrics self sys) in
     get_latest_metrics recorded sys' = (Ok (Some metrics), recorded, sys')) /\
  total get_latest_metrics.
Proof.
  split; [|split; [|apply get_latest_metrics_total]].
  - intros self sys Hnil. unfold get_latest_metrics, mbind, eff_bind, get.
    by rewrite decide_True.
  - intros metrics self sys sys' recorded. subst recorded.
    unfold get_latest_metrics, mbind, eff_bind, get, lift, record_metrics, modify, state_of.
    simpl. rewrite decide_False by (by destruct (metrics_history self)).
    by rewrite last_item_snoc.
Qed.

Lemma latest_is_last_recorded_witness :
  get_latest_metrics init noon = (Ok None, init, noon).
Proof. apply (proj1 latest_is_last_recorded init noon). reflexivity. Defined.
End metrics_more.

(** ** Averages over the metrics history *)

Section averages.
Import Metrics.
Implicit Types (self : MetricsTracker) (sys : Sys) (h : list PerformanceMetrics).

Lemma slice_from_zero {A} (l : list A) : slice_from l 0 = l.
Proof. reflexivity. Qed.

(** [l[-n:]] for a positive [n]: the last [n] elements, or all of [l]. *)
Lemma slice_from_last {A} (l : list A) (n : nat) :
  0 < n -> slice_from l (- Z.of_nat n) = drop (length l - n) l.
Proof.
  intros Hn. unfold slice_from.
  destruct (Z.leb_spec 0 (- Z.of_nat n)); [lia|].
  by rewrite Z.opp_involutive, Nat2Z.id.
Qed.

(** [l[k:]] for a [k] that is not negative. *)
Lemma slice_from_drop {A} (l : list A) (k : nat) : slice_from l (Z.of_nat k) = drop k l.
Proof.
  unfold slice_from. destruct (Z.leb_spec 0 (Z.of_nat k)); [|lia].
  by rewrite Nat2Z.id.
Qed.

Lemma slice_from_last_nonempty {A} (l : list A) (n : nat) :
  0 < n -> l <> [] -> slice_from l (- Z.of_nat n) <> [].
Proof.
  intros Hn Hl. rewrite slice_from_last by done.
  intros Hnil%(f_equal length). rewrite length_drop, length_nil in Hnil.
  destruct l; [done|]. simpl in Hnil. lia.
Qed.

Lemma slice_from_nil {A} (k : Z) : slice_from (@nil A) k = [].
Proof. unfold slice_from. case_match; apply drop_nil. Qed.

(** The guards of [get_average_metrics]: no window, no average. *)
Lemma get_average_metrics_none last_n self sys :
  slice_from (metrics_history self) (- last_n) = [] ->
  get_average_metrics last_n self sys = (Ok None, self, sys).
Proof.
  intros Hnil. unfold get_average_metrics, mbind, eff_bind, get.
  destruct (decide (metrics_history self = [])); [done|].
  by rewrite decide_True.
Qed.

Lemma get_average_metrics_some last_n self sys :
  let recent := slice_from (metrics_history self) (- last_n) in
  recent <> [] ->
  exists avg,
    get_average_metrics last_n self sys = (Ok (Some avg), self, tick sys) /\
    timestamp avg = clock sys (ticks sys) /\
    query_processing_time avg = mean (query_processing_time <$> recent) /\
    document_retrieval_time avg = mean (document_retrieval_time <$> recent) /\
    response_generation_time avg = mean (response_generation_time <$> recent) /\
    total_response_time avg = mean (total_response_time <$> recent) /\
    documents_retrieved avg = Z.to_nat (int (mean_int (documents_retrieved <$> recent))) /\
    documents_used avg = Z.to_nat (int (mean_int (documents_used <$> recent))) /\
    similarity_scores avg = recent ≫= similarity_scores.
Proof.
  intros recent Hrecent. subst recent.
  unfold get_average_metrics, mbind at 1, eff_bind, get.
  destruct (decide (metrics_history self = [])) as [Hnil|_].
  { rewrite Hnil, slice_from_nil in Hrecent. done. }
  rewrite decide_False by done. eexists. split; [reflexivity|]. by repeat split.
Qed.

(** The answer depends on the selected records only. *)
Lemma get_average_metrics_selected n self sys :
  value_of (get_average_metrics n self sys)
  = value_of (get_average_metrics 0 (tracker_of (slice_from (metrics_history self) (- n))) sys).
Proof.
  destruct (decide (slice_from (metrics_history self) (- n) = [])) as [Hnil|Hcons].
  - rewrite (get_average_metrics_none _ _ _ Hnil).
    rewrite get_average_metrics_none; [done|]. simpl. by rewrite Hnil.
  - assert (metrics_history self <> []) as Hh.
    { intros Hn. by rewrite Hn, slice_from_nil in Hcons. }
    unfold get_average_metrics, mbind, eff_bind, get, tracker_of, time_time.
    cbn [metrics_history]. change (- 0)%Z with 0%Z. cbv zeta.
    rewrite !slice_from_zero. by rewrite !decide_False by done.
Qed.

(** Two calls that select the same records give the same answer. *)
Lemma get_average_metrics_window n n' self self' sys :
  slice_from (metrics_history self) (- n) = slice_from (metrics_history self') (- n') ->
  value_of (get_average_metrics n self sys) = value_of (get_average_metrics n' self' sys).
Proof.
  intros Heq.
  rewrite (get_average_metrics_selected n), (get_average_metrics_selected n').
  by rewrite Heq.
Qed.

(** X5.  For a positive [last_n] the average is taken over the last
    [last_n] records only: older records do not change it. *)
Theorem average_over_last_n older recent timers sys :
  recent <> [] ->
  let last_n := Z.of_nat (length recent) in
  value_of (get_average_metrics last_n
              {| metrics_history := older ++ recent; current_timers := timers |} sys)
  = value_of (get_average_metrics last_n
                {| metrics_history := recent; current_timers := timers |} sys).
Proof.
  intros Hrecent last_n. subst last_n. apply get_average_metrics_window. simpl.
  assert (0 < length recent) as Hpos by (destruct recent; [done | simpl; lia]).
  rewrite !slice_from_last by done.
  rewrite length_app, Nat.sub_diag, drop_0.
  replace (length older + length recent - length recent) with (length older) by lia.
  by rewrite drop_app_length.
Qed.

Lemma average_over_last_n_witness :
  value_of (get_average_metrics 2 (tracker_of [measured 9 1; measured 1 2; measured 3 4]) noon)
  = value_of (get_average_metrics 2 (tracker_of [measured 1 2; measured 3 4]) noon).
Proof.
  apply (average_over_last_n [measured 9 1] [measured 1 2; measured 3 4] ∅ noon).
  discriminate.
Defined.

(** X6.  The edges of the window [metrics_history[-last_n:]]: a [last_n]
    of 0 selects the whole history, like any [last_n] beyond its length; a
    negative [last_n] drops that many of the oldest records, and yields
    [None] when none is left. *)
Theorem average_window_edges self sys :
  let h := metrics_history self in
  value_of (get_average_metrics 0 self sys)
  = value_of (get_average_metrics (Z.of_nat (length h)) self sys) /\
  (forall n, length h <= n ->
     value_of (get_average_metrics (Z.of_nat n) self sys)
     = value_of (get_average_metrics 0 self sys)) /\
  (forall k, length h <= k ->
     get_average_metrics (- Z.of_nat k) self sys = (Ok None, self, sys)) /\
  (forall k timers, k <= length h ->
     value_of (get_average_metrics (- Z.of_nat k) self sys)
     = value_of (get_average_metrics 0
                   {| metrics_history := drop k h; current_timers := timers |} sys)).
Proof.
  intros h. subst h. repeat split.
  - apply get_average_metrics_window. simpl.
    destruct (metrics_history self) as [|m h] eqn:Hh; [done|].
    rewrite slice_from_last by (simpl; lia). by rewrite Nat.sub_diag.
  - intros n Hn. apply get_average_metrics_window. simpl.
    destruct n as [|n]; [done|].
    rewrite slice_from_last by lia.
    by replace (length (metrics_history self) - S n) with 0 by lia.
  - intros k Hk. apply get_average_metrics_none.
    rewrite Z.opp_involutive, slice_from_drop. by apply drop_ge.
  - intros k timers Hk. apply get_average_metrics_window. simpl.
    by rewrite Z.opp_involutive, slice_from_drop.
Qed.

Lemma average_window_edges_witness :
  get_average_metrics (-2) (tracker_of [measured 1 2; measured 3 4]) noon
  = (Ok None, tracker_of [measured 1 2; measured 3 4], noon) /\
  value_of (get_average_metrics (-1) (tracker_of [measured 1 2; measured 3 4]) noon)
  = value_of (get_average_metrics 0 (tracker_of [measured 3 4]) noon).
Proof.
  destruct (average_window_edges (tracker_of [measured 1 2; measured 3 4]) noon)
    as (_ & _ & Hnone & Hdrop).
  split.
  - apply (Hnone 2). simpl. lia.
  - apply (Hdrop 1 ∅). simpl. lia.
Defined.
End averages.

Section averages_values.
Import Metrics.
Implicit Types (self : MetricsTracker) (sys : Sys).

(** [int(a / b)] of two counts is the floor division. *)
Lemma int_div_nat (a b : nat) :
  0 < b ->
  Z.to_nat (int (inject_Z (Z.of_nat a) / inject_Z (Z.of_nat b))) = a `div` b.
Proof.
  intros Hb. unfold int.
  assert (0 <= inject_Z (Z.of_nat a) / inject_Z (Z.of_nat b))%Q as Hnonneg.
  { apply Qle_shift_div_l.
    - rewrite <- (Zlt_Qlt 0). lia.
    - rewrite Qmult_0_l, <- (Zle_Qle 0). lia. }
  apply Qltb_false in Hnonneg. rewrite Hnonneg.
  destruct b as [|b]; [lia|].
  rewrite <- (Nat2Z.id (a `div` S b)), Nat2Z.inj_div. f_equal.
  change (Z.of_nat (S b)) with (Z.pos (Pos.of_succ_nat b)).
  unfold Qdiv, Qinv, Qmult, inject_Z, Qfloor. simpl.
  by rewrite Z.mul_1_r.
Qed.

Lemma int_mean_int (ns : list nat) :
  ns <> [] -> Z.to_nat (int (mean_int ns)) = sum_int ns `div` length ns.
Proof.
  intros Hne. apply int_div_nat. destruct ns; [done | simpl; lia].
Qed.

Lemma length_bind_sum {A B} (f : A -> list B) (l : list A) :
  length (l ≫= f) = sum_int ((fun x => length (f x)) <$> l).
Proof.
  unfold sum_int.
  assert (forall acc, foldl Nat.add acc ((fun x => length (f x)) <$> l)
                      = acc + length (l ≫= f)) as Hsum.
  { induction l as [|x l IH]; intros acc; cbn; [lia|].
    rewrite IH, length_app. lia. }
  by rewrite Hsum.
Qed.

(** X7.  When the selected window is not empty, [get_average_metrics]
    returns a record stamped with the current time whose integer fields are
    the floor of the mean (for instance [documents_retrieved]), and whose
    similarity scores are all the scores of the window, one record after
    the other: they are collected, not averaged. *)
Theorem average_counts_and_scores last_n self sys :
  let recent := slice_from (metrics_history self) (- last_n) in
  recent <> [] ->
  exists avg,
    get_average_metrics last_n self sys = (Ok (Some avg), self, tick sys) /\
    timestamp avg = clock sys (ticks sys) /\
    documents_retrieved avg
    = sum_int (documents_retrieved <$> recent) `div` length recent /\
    documents_used avg = sum_int (documents_used <$> recent) `div` length recent /\
    similarity_scores avg = recent ≫= similarity_scores /\
    length (similarity_scores avg)
    = sum_int ((fun m => length (similarity_scores m)) <$> recent).
Proof.
  intros recent Hrecent.
  destruct (get_average_metrics_some last_n self sys Hrecent)
    as (avg & Hrun & Hstamp & _ & _ & _ & _ & Hretrieved & Hused & Hscores).
  fold recent in Hretrieved, Hused, Hscores.
  exists avg. split; [done|]. split; [done|].
  rewrite Hretrieved, Hused, !int_mean_int, !length_fmap by (by destruct recent).
  do 3 (split; [done|]). rewrite Hscores. apply length_bind_sum.
Qed.

Lemma average_counts_and_scores_witness :
  exists avg,
    value_of (get_average_metrics 10 (tracker_of [measured 1 2; measured 3 5]) noon)
    = Ok (Some avg) /\
    documents_retrieved avg = 3 /\
    length (similarity_scores avg) = 7.
Proof.
  destruct (average_counts_and_scores 10 (tracker_of [measured 1 2; measured 3 5]) noon)
    as (avg & Hrun & _ & Hretrieved & _ & _ & Hlength); [discriminate|].
  exists avg. split; [by rewrite Hrun|]. split; [exact Hretrieved | exact Hlength].
Defined.
End averages_values.

Section summary.
Import Metrics.
Implicit Types (self : MetricsTracker) (sys : Sys).

Lemma get_metrics_summary_empty self sys :
  metrics_history self = [] ->
  get_metrics_summary self sys = (Ok (NoMetrics "No metrics recorded yet"), self, sys).
Proof.
  intros Hnil. unfold get_metrics_summary, mbind, eff_bind, get.
  by rewrite decide_True.
Qed.

Lemma get_metrics_summary_recorded self sys first rest :
  metrics_history self = first :: rest ->
  exists recent,
    get_metrics_summary self sys
    = (Ok (Metrics {| total_queries_processed := S (length rest);
                      average_response_time :=
                        round (mean (total_response_time <$> first :: rest)) 4;
                      average_documents_retrieved :=
                        round (mean_int (documents_retrieved <$> first :: rest)) 2;
                      recent_performance := Some recent;
                      tracking_since := Some (timestamp first) |}),
       self, tick sys) /\
    value_of (get_average_metrics 10 self sys) = Ok (Some recent).
Proof.
  intros Hh.
  destruct (get_average_metrics_some 10 self sys) as (recent & Hrun & _).
  { apply (slice_from_last_nonempty _ 10); [lia | by rewrite Hh]. }
  exists recent. split; [|by rewrite Hrun].
  unfold get_metrics_summary, mbind at 1, eff_bind, get.
  rewrite decide_False by (by rewrite Hh).
  unfold mbind at 1. rewrite Hrun. unfold mbind, eff_bind, lift.
  by rewrite Hh.
Qed.

Lemma get_metrics_summary_total : total get_metrics_summary.
Proof.
  intros self sys. destruct (metrics_history self) as [|first rest] eqn:Hh.
  - rewrite (get_metrics_summary_empty _ _ Hh). apply returns_ok.
  - destruct (get_metrics_summary_recorded _ sys _ _ Hh) as (recent & -> & _).
    apply returns_ok.
Qed.

(** X9.  [get_metrics_summary] answers with the message alone while
    nothing is recorded.  Otherwise it counts every record, rounds the mean
    response time to four decimals, reports the time of the first record,
    and always holds a recent performance, the one of
    [get_average_metrics(10)].  It never raises, so that the endpoint
    [get_metrics] never answers with an error. *)
Theorem metrics_summary_contents self sys :
  (metrics_history self = [] ->
     get_metrics_summary self sys
     = (Ok (NoMetrics "No metrics recorded yet"), self, sys)) /\
  (forall first rest, metrics_history self = first :: rest ->
     exists summary recent,
       get_metrics_summary self sys = (Ok (Metrics summary), self, tick sys) /\
       total_queries_processed summary = length (metrics_history self) /\
       average_response_time summary
       = round (mean (total_response_time <$> metrics_history self)) 4 /\
       tracking_since summary = Some (timestamp first) /\
       recent_performance summary = Some recent /\
       value_of (get_average_metrics 10 self sys) = Ok (Some recent)) /\
  (forall w, App.metrics_tracker w = self ->
     exists answer,
       value_of (App.get_metrics w sys) = Ok answer /\
       value_of (get_metrics_summary self sys) = Ok answer).
Proof.
  split; [apply get_metrics_summary_empty|]. split.
  - intros first rest Hh.
    destruct (get_metrics_summary_recorded self sys first rest Hh) as (recent & Hrun & Havg).
    eexists _, recent. split; [exact Hrun|]. rewrite Hh. by repeat split.
  - intros w <-.
    destruct (get_metrics_summary_total (App.metrics_tracker w) sys) as [answer Hanswer].
    exists answer. split; [|done].
    unfold App.get_metrics.
    assert (value_of (App.on_metrics get_metrics_summary w sys) = Ok answer) as Hon.
    { unfold App.on_metrics, on, value_of in *.
      destruct (get_metrics_summary (App.metrics_tracker w) sys) as [[r t] sys'].
      by simpl in *. }
    by rewrite (try_except_returns _ _ _ _ _ Hon).
Qed.

Lemma metrics_summary_contents_witness :
  exists summary,
    value_of (get_metrics_summary (tracker_of [measured 1 2; measured 3 5]) noon)
    = Ok (Metrics summary) /\
    total_queries_processed summary = 2 /\
    tracking_since summary = Some 1%Q.
Proof.
  destruct (metrics_summary_contents (tracker_of [measured 1 2; measured 3 5]) noon)
    as (_ & Hrecorded & _).
  destruct (Hrecorded (measured 1 2) [measured 3 5] eq_refl)
    as (summary & recent & Hrun & Htotal & _ & Hsince & _).
  exists summary. split; [by rewrite Hrun|]. split; [exact Htotal | exact Hsince].
Defined.

(** X10.  [clear_metrics] forgets the history and the running timers: a
    timer started before it is lost, so that stopping it afterwards returns
    0.0 with the warning; there is no latest record, no average, and the
    summary is the message alone. *)
Theorem clear_metrics_forgets self sys sys' timer_name last_n :
  (start_timer timer_name;; clear_metrics;; stop_timer timer_name) self sys
  = (Ok 0.0%Q, init, warn (not_found timer_name) (tick sys)) /\
  (let cleared := state_of (clear_metrics self sys) in
   value_of (get_latest_metrics cleared sys') = Ok None /\
   value_of (get_average_metrics last_n cleared sys') = Ok None /\
   value_of (get_metrics_summary cleared sys') = Ok (NoMetrics "No metrics recorded yet")).
Proof. repeat split. Qed.
End summary.

(** ** More on the conversation context *)

Section context_more.
Import Context.
Implicit Types (cm : ContextManager) (sys : Sys) (c : Call) (cs : list Call).

Lemma same_context_refl cm : same_context cm cm.
Proof. by repeat split. Qed.

(** No method reads [max_context_length]: a call answers alike and keeps
    alike two managers that differ in it only. *)
Lemma call_same_context c cm cm' sys :
  same_context cm cm' ->
  value_of (call c cm sys) = value_of (call c cm' sys) /\
  sys_of (call c cm sys) = sys_of (call c cm' sys) /\
  same_context (state_of (call c cm sys)) (state_of (call c cm' sys)).
Proof.
  intros (Hh & Hd & Hq). destruct c; simpl.
  - unfold same_context, state_of. simpl. by rewrite Hh, Hd, Hq.
  - unfold same_context, state_of. simpl. by rewrite Hh, Hd, Hq.
  - unfold same_context, state_of. simpl. by rewrite Hh, Hd.
  - rewrite !add_retrieved_documents_run.
    unfold same_context, state_of. simpl. by rewrite Hh, Hd, Hq.
  - unfold mbind, eff_bind. rewrite !get_context_window_run.
    unfold same_context, state_of. simpl. by rewrite Hh, Hd, Hq.
  - by unfold same_context, state_of.
  - unfold same_context, state_of. simpl. by rewrite Hh, Hd, Hq.
Qed.

Lemma calls_same_context cs : forall cm cm' sys,
  same_context cm cm' ->
  sys_of (calls cs cm sys) = sys_of (calls cs cm' sys) /\
  same_context (state_of (calls cs cm sys)) (state_of (calls cs cm' sys)).
Proof.
  induction cs as [|c cs IH]; intros cm cm' sys Hsame; simpl; [done|].
  destruct (call_run c cm sys) as (cm1 & sys1 & Hrun & _).
  destruct (call_run c cm' sys) as (cm1' & sys1' & Hrun' & _).
  destruct (call_same_context c cm cm' sys Hsame) as (_ & Hsys & Hstate).
  rewrite Hrun, Hrun' in Hsys, Hstate. unfold sys_of, state_of in Hsys, Hstate.
  simpl in Hsys, Hstate. subst sys1'.
  unfold mbind, eff_bind. rewrite Hrun, Hrun'. by apply IH.
Qed.

(** X11.  [max_context_length] limits nothing: after the same calls, two
    context managers created with different maximum lengths give the same
    context window and the same estimate of tokens, and that estimate can
    lie beyond the maximum. *)
Theorem max_context_length_unused cs n n' sys :
  let after := calls cs (init n) sys in
  let after' := calls cs (init n') sys in
  value_of (get_context_window (state_of after) (sys_of after))
  = value_of (get_context_window (state_of after') (sys_of after')) /\
  value_of (_estimate_tokens (state_of after) (sys_of after))
  = value_of (_estimate_tokens (state_of after') (sys_of after')) /\
  value_of (_estimate_tokens
              (state_of (add_user_message "Where can I stay in Jammu?" None (init 1) sys))
              sys)
  = Ok 6.
Proof.
  intros after after'. subst after after'.
  destruct (calls_same_context cs (init n) (init n') sys) as (Hsys & Hh & Hd & Hq).
  { by repeat split. }
  rewrite <- Hsys, !get_context_window_run.
  unfold _estimate_tokens, mbind, eff_bind, get, value_of. simpl.
  by rewrite Hh, Hd, Hq.
Qed.

(** X12.  Ties for the window are decided by age: the documents of the
    window are in decreasing order of score and, among stored documents of
    equal score, the window holds the ones stored first, in the order in
    which they were stored. *)
Theorem window_prefers_older_documents cm sys :
  exists window,
    get_context_window cm sys = (Ok window, cm, sys) /\
    StronglySorted (desc doc_score) (cw_retrieved_documents window) /\
    keeps_order doc_score (retrieved_documents cm) (cw_retrieved_documents window).
Proof.
  eexists. split; [apply get_context_window_run|]. simpl.
  apply ranked_prefix.
Qed.

Lemma foldl_add_sum {A} (f : A -> nat) (l : list A) : forall acc,
  foldl (fun n x => n + f x) acc l = acc + sum_list_with f l.
Proof.
  induction l as [|x l IH]; intros acc; simpl; [lia|]. rewrite IH. lia.
Qed.

Lemma estimate_tokens_run cm sys :
  _estimate_tokens cm sys = (Ok (total_chars cm `div` 4), cm, sys).
Proof.
  unfold _estimate_tokens, mbind, eff_bind, get. cbv zeta.
  rewrite !foldl_add_sum. unfold mret, eff_ret. do 3 f_equal.
  unfold total_chars.
  destruct (current_query cm) as [q|]; cbn [from_option]; [|f_equal; lia].
  case_decide as Hq; [|f_equal; lia]. subst q. cbn [String.length]. f_equal. lia.
Qed.

(** X13.  The estimate of tokens is a quarter, rounded down, of all the
    characters stored: the contents of every turn and of every document
    (not only those of the window) and the current query.  A new turn adds
    its length to that count, so the estimate never decreases when a turn
    is added. *)
Theorem estimate_counts_everything cm sys content metadata :
  let added := state_of (add_user_message content metadata cm sys) in
  _estimate_tokens cm sys = (Ok (total_chars cm `div` 4), cm, sys) /\
  total_chars added = total_chars cm + String.length content /\
  (forall tokens tokens',
     value_of (_estimate_tokens cm sys) = Ok tokens ->
     value_of (_estimate_tokens added sys) = Ok tokens' ->
     tokens <= tokens').
Proof.
  intros added. subst added.
  assert (total_chars (state_of (add_user_message content metadata cm sys))
          = total_chars cm + String.length content) as Hadd.
  { unfold total_chars, state_of. simpl.
    rewrite sum_list_with_app. simpl. lia. }
  split; [apply estimate_tokens_run|]. split; [exact Hadd|].
  intros tokens tokens'. rewrite !estimate_tokens_run, Hadd.
  unfold value_of. cbn [fst]. intros [= <-] [= <-].
  apply (Nat.Div0.div_le_mono _ _ 4). lia.
Qed.

(** X14.  The summary counts what is stored, not what the window shows:
    after any calls on a new context manager, [conversation_length] is the
    number of turns and [retrieved_documents_count] the number of documents
    added since the last [clear_context], beyond 10 and 3 as well. *)
Theorem summary_counts_everything cs n sys :
  let after := calls cs (init n) sys in
  exists summary,
    get_context_summary (state_of after) (sys_of after)
    = (Ok summary, state_of after, sys_of after) /\
    conversation_length summary = length (turns_since_clear cs) /\
    retrieved_documents_count summary = length (documents_since_clear cs) /\
    total_tokens_estimated summary = total_chars (state_of after) `div` 4.
Proof.
  intros after. subst after.
  destruct (calls_run cs (init n) sys [] [] eq_refl eq_refl)
    as (cm' & sys' & -> & Hturns & Hdocs).
  unfold state_of, sys_of. simpl.
  unfold get_context_summary, mbind at 1 2, eff_bind, get.
  rewrite estimate_tokens_run. eexists. split; [reflexivity|]. simpl.
  fold (turns_since_clear cs) in Hturns. fold (documents_since_clear cs) in Hdocs.
  by rewrite <- Hturns, Hdocs, !length_fmap.
Qed.
End context_more.

(** ** More on the retrieval ranker *)

Section retriever_more.
Import Retriever.
Implicit Types (vr : QueryResult) (top_k : Z) (self : HybridRetriever).

(** X15.  [retrieve] passes on the exception of a failed index query as it
    is.  A reply without an id list for the query is an error as well: the
    log message of [_vector_search] subscripts [ids] before
    [_combine_results] can apply its guard, which would have given the
    empty list. *)
Theorem retrieve_failures self query top_k metadata_filter :
  (forall e, search (vector_store self) query top_k metadata_filter = Raise e ->
     retrieve self query top_k metadata_filter = Raise e) /\
  (forall vr, search (vector_store self) query top_k metadata_filter = Ok vr ->
     qr_ids vr = None ->
     retrieve self query top_k metadata_filter = Raise TypeError /\
     _combine_results vr top_k = Ok []) /\
  (forall vr, search (vector_store self) query top_k metadata_filter = Ok vr ->
     qr_ids vr = Some [] ->
     retrieve self query top_k metadata_filter = Raise IndexError /\
     _combine_results vr top_k = Ok []).
Proof.
  split; [apply retrieve_raise|].
  split; intros vr Hs Hids; (split;
    [unfold retrieve, _vector_search; rewrite Hs; simpl; by rewrite Hids
    |rewrite combine_ok; unfold candidates; rewrite Hids; unfold inner at 4;
     rewrite slice_to_nil; simpl; by rewrite slice_to_nil]).
Qed.

Lemma retrieve_failures_witness :
  retrieve (index_answering (Raise (StoreError "index unavailable"))) "beach" 5 None
  = Raise (StoreError "index unavailable") /\
  retrieve (index_answering (Ok {| qr_ids := Some []; qr_documents := None;
                                   qr_metadatas := None; qr_distances := None |}))
           "beach" 5 None
  = Raise IndexError.
Proof.
  split.
  - apply (proj1 (retrieve_failures _ "beach" 5 None)). reflexivity.
  - eapply (proj2 (proj2 (retrieve_failures _ "beach" 5 None))); reflexivity.
Defined.

Lemma slice_to_all {A} (l : list A) (k : Z) :
  (0 <= k)%Z -> length l <= Z.to_nat k -> slice_to l k = l.
Proof.
  intros Hk Hl. unfold slice_to. destruct (Z.leb_spec 0 k); [|lia].
  by apply take_ge.
Qed.

(** For a [top_k] that is not negative the second slice removes nothing. *)
Lemma ranked_all vr top_k :
  (0 <= top_k)%Z ->
  slice_to (sort_desc res_score (candidates vr top_k)) top_k
  = sort_desc res_score (candidates vr top_k).
Proof.
  intros Hk. apply slice_to_all; [done|].
  rewrite sort_desc_length, candidates_length, slice_to_length_nonneg by done. lia.
Qed.

(** X16.  For a [top_k] that is not negative, [retrieve] returns one result
    for each of the first [top_k] ids of the reply and nothing else: no
    candidate is filtered out, and an id that the index lists twice is
    returned twice. *)
Theorem retrieve_keeps_candidates self query top_k metadata_filter vr ids rest :
  (0 <= top_k)%Z ->
  search (vector_store self) query top_k metadata_filter = Ok vr ->
  qr_ids vr = Some (ids :: rest) ->
  exists out,
    retrieve self query top_k metadata_filter = Ok out /\
    res_id <$> out ≡ₚ take (Z.to_nat top_k) ids /\
    length out = Z.to_nat top_k `min` length ids.
Proof.
  intros Hk Hs Hids. eexists. split; [by eapply retrieve_ok|].
  rewrite ranked_all by done. split.
  - rewrite sort_desc_perm, candidates_ids, Hids. simpl.
    unfold slice_to. by destruct (Z.leb_spec 0 top_k); [|lia].
  - rewrite sort_desc_length, candidates_length, Hids. simpl.
    by apply slice_to_length_nonneg.
Qed.

Lemma retrieve_keeps_candidates_witness :
  exists out,
    retrieve (index_answering (Ok reply_abc)) "beach" 2 None = Ok out /\
    res_id <$> out ≡ₚ take 2 ["a"; "b"; "c"] /\
    length out = 2 `min` 3.
Proof.
  apply (retrieve_keeps_candidates (index_answering (Ok reply_abc)) "beach" 2 None
                                   reply_abc ["a"; "b"; "c"] []);
    [lia | reflexivity | reflexivity].
Defined.

(** X17.  Sorting moves whole results: every result that [retrieve]
    returns carries the content, the metadata and the distance found at the
    position of its own id in the reply (with the defaults where they are
    missing), and the source [vector]. *)
Theorem retrieve_keeps_alignment self query top_k metadata_filter vr out r :
  search (vector_store self) query top_k metadata_filter = Ok vr ->
  retrieve self query top_k metadata_filter = Ok out ->
  r ∈ out ->
  exists i,
    inner (qr_ids vr) !! i = Some (res_id r) /\
    res_content r = default "" (inner (qr_documents vr) !! i) /\
    res_metadata r = default ∅ (inner (qr_metadatas vr) !! i) /\
    res_score r = match inner (qr_distances vr) !! i with
                  | Some d => (1 - d)%Q
                  | None => 1.0%Q
                  end /\
    res_source r = "vector".
Proof.
  intros Hs (vr' & Hs' & ->)%retrieve_inv Hr.
  rewrite Hs in Hs'. injection Hs' as <-.
  assert (r ∈ candidates vr top_k) as Hin.
  { apply (sort_desc_elem res_score).
    destruct (slice_to_prefix (sort_desc res_score (candidates vr top_k)) top_k) as [k Hk].
    rewrite Hk. apply elem_of_app. by left. }
  apply list_elem_of_lookup in Hin as [i Hi].
  apply candidates_lookup in Hi as (doc_id & Hid & ->).
  exists i. split; [|done]. simpl.
  by eapply prefix_lookup_Some, slice_to_prefix.
Qed.

Lemma retrieve_keeps_alignment_witness :
  exists i,
    inner (qr_ids reply_abc) !! i = Some "a" /\
    "first" = default "" (inner (qr_documents reply_abc) !! i).
Proof.
  destruct (retrieve_keeps_alignment (index_answering (Ok reply_abc)) "beach" 5 None
              reply_abc _
              {| res_id := "a"; res_content := "first"; res_metadata := ∅;
                 res_score := 0.6; res_source := "vector" |} eq_refl eq_refl)
    as (i & Hid & Hcontent & _).
  - apply elem_of_cons. right. apply elem_of_cons. right. apply elem_of_cons. by left.
  - by exists i.
Defined.

Lemma fold_max_sorted {A} (key : A -> Q) (x : A) (l : list A) :
  Forall (fun y => key y <= key x)%Q l ->
  fold_left (fun best y => if Qltb (key best) (key y) then y else best) l x = x.
Proof.
  induction 1 as [|y l Hy _ IH]; simpl; [done|].
  apply Qltb_false in Hy. by rewrite Hy.
Qed.

(** In a list in decreasing order, [max] picks the first element. *)
Lemma max_by_sorted {A} (key : A -> Q) (x : A) (l : list A) :
  StronglySorted (desc key) (x :: l) -> max_by key (x :: l) = Ok x.
Proof.
  intros [_ Hx]%StronglySorted_inv. simpl. f_equal. by apply fold_max_sorted.
Qed.

(** X18.  The first result of [retrieve] has the greatest score, and it is
    the one that [max(documents, key=score)] selects in
    [_generate_response]: the reply of the chat is built from the top
    result alone. *)
Theorem top_result_is_best self query top_k metadata_filter r rest user_query :
  retrieve self query top_k metadata_filter = Ok (r :: rest) ->
  (forall r', r' ∈ rest -> (res_score r' <= res_score r)%Q) /\
  max_by res_score (r :: rest) = Ok r /\
  App._generate_response user_query (r :: rest) = App._generate_response user_query [r].
Proof.
  intros (vr & _ & Hout)%retrieve_inv.
  assert (StronglySorted (desc res_score) (r :: rest)) as Hsorted.
  { rewrite Hout. apply ranked_prefix. }
  split.
  - apply StronglySorted_inv in Hsorted as [_ Hr]. by apply Forall_forall.
  - split; [by apply max_by_sorted|].
    unfold App._generate_response.
    rewrite !decide_False by done.
    rewrite (max_by_sorted _ _ _ Hsorted). done.
Qed.

Lemma top_result_is_best_witness :
  max_by res_score
    [ {| res_id := "a"; res_content := "first"; res_metadata := ∅;
         res_score := 0.9; res_source := "vector" |};
      {| res_id := "b"; res_content := "second"; res_metadata := ∅;
         res_score := 0.6; res_source := "vector" |} ]
  = Ok {| res_id := "a"; res_content := "first"; res_metadata := ∅;
          res_score := 0.9; res_source := "vector" |}.
Proof.
  apply (top_result_is_best (index_answering (Ok reply_ab)) "beach" 5 None _ _ "beach").
  reflexivity.
Defined.
End retriever_more.

(** ** The vector store *)

Section store.
Import Store.

Lemma result_count_total results : returns (result_count results).
Proof.
  unfold result_count. destruct (qr_ids results) as [[|first rest]|]; simpl;
    apply returns_ok.
Qed.

(** X19.  [VectorStore.search] asks the collection for [n_results]
    neighbours of the one query text, with documents, metadata and
    distances, and passes the filter on only when it is a non-empty
    dictionary: [None] and [{}] both mean no filter.  What the collection
    answers or raises is what [search] answers or raises, whatever the
    shape of the reply. *)
Theorem search_passes_query collection query_text n metadata_filter :
  search collection query_text n metadata_filter
  = query collection
      {| query_texts := [query_text]; n_results := n;
         include := ["documents"; "metadatas"; "distances"];
         where_filter := if truthy_dict metadata_filter then metadata_filter else None |} /\
  search collection query_text n (Some ∅) = search collection query_text n None.
Proof.
  assert (forall args, (results ← query collection args;
                        _ ← result_count results; mret results)
                       = query collection args) as Hpass.
  { intros args. destruct (query collection args) as [results|e]; simpl; [|done].
    by destruct (result_count_total results) as [k ->]. }
  split.
  - unfold search. destruct (truthy_dict metadata_filter); apply Hpass.
  - unfold search. simpl. rewrite bool_decide_false; [done|]. by intros [].
Qed.
End store.

(** ** A request of [chat], step by step *)

Section chat_steps.
Import Retriever App.
Implicit Types (w : World) (sys : Sys).

Lemma step_start {A} timer_name (f : unit -> Eff World A) w sys :
  (on_metrics (Metrics.start_timer timer_name) ≫= f) w sys
  = f tt (with_timers <[timer_name := clock sys (ticks sys)]> w) (tick sys).
Proof. reflexivity. Qed.

Lemma step_stop {A} timer_name started (f : Q -> Eff World A) w sys :
  Metrics.current_timers (metrics_tracker w) !! timer_name = Some started ->
  (on_metrics (Metrics.stop_timer timer_name) ≫= f) w sys
  = f (clock sys (ticks sys) - started)%Q (with_timers (delete timer_name) w) (tick sys).
Proof.
  intros Hrunning. unfold mbind, eff_bind, on_metrics, on.
  by rewrite (stop_timer_running _ _ _ _ Hrunning).
Qed.

Lemma step_record {A} metrics (f : unit -> Eff World A) w sys :
  (on_metrics (Metrics.record_metrics metrics) ≫= f) w sys = f tt (with_record metrics w) sys.
Proof. reflexivity. Qed.

Lemma step_context {A B} (m : Eff Context.ContextManager A) (f : A -> Eff World B)
    w sys x cm' sys' :
  m (context_manager w) sys = (Ok x, cm', sys') ->
  (on_context m ≫= f) w sys = f x (with_context (fun _ => cm') w) sys'.
Proof. intros Hm. unfold mbind, eff_bind, on_context, on. by rewrite Hm. Qed.

Lemma step_time {A} (f : Q -> Eff World A) w sys :
  (time_time ≫= f) w sys = f (clock sys (ticks sys)) w (tick sys).
Proof. reflexivity. Qed.

Lemma step_lift {A B} (x : A) (f : A -> Eff World B) w sys :
  (lift (Ok x) ≫= f) w sys = f x w sys.
Proof. reflexivity. Qed.

Lemma generate_response_ok user_query documents :
  documents <> [] -> returns (_generate_response user_query documents).
Proof.
  intros Hne. unfold _generate_response. rewrite decide_False by done.
  destruct (max_by_spec res_score documents Hne) as (best & -> & _). simpl.
  repeat case_match; apply returns_ok.
Qed.

Lemma calculate_confidence_returns documents : returns (_calculate_confidence documents).
Proof.
  destruct documents as [|r documents]; [apply returns_ok|].
  destruct (max_by_spec res_score (r :: documents)) as (best & _ & Hin & Hmax); [done|].
  rewrite (calculate_confidence_ok (r :: documents) (res_score best)); [apply returns_ok|].
  split; eauto.
Qed.
End chat_steps.

Ltac timer_lookup :=
  cbn [with_timers with_record with_context App.metrics_tracker App.context_manager
       Metrics.set_timers Metrics.current_timers Metrics.metrics_history];
  repeat first [ rewrite lookup_insert_eq
               | rewrite lookup_insert_ne by done
               | rewrite lookup_delete_ne by done ];
  reflexivity.

Ltac enter_chat Hq Hne :=
  unfold App.chat; rewrite Hq; cbv zeta;
  change (default "" (Some ?q)) with q;
  rewrite decide_False by exact Hne;
  unfold try_except;
  rewrite !step_start;
  erewrite step_context by reflexivity;
  erewrite step_context by reflexivity;
  erewrite step_stop by timer_lookup;
  rewrite step_start, attempt_lift.

Section chat_runs.
Import Retriever App.
Implicit Types (w : World) (sys : Sys) (retriever : HybridRetriever).

(** The request whose retrieval raises. *)
Lemma chat_run_raise retriever (query : gmap string string) user_query w sys e :
  query !! "message" = Some user_query -> user_query <> "" ->
  retrieve retriever user_query TOP_K_RESULTS None = Raise e ->
  let now i := clock sys (i + ticks sys) in
  exists w',
    chat retriever query w sys
    = (Ok {| query := user_query;
             response := _fallback_response user_query;
             confidence := 80.0;
             documents_retrieved := 0;
             response_time := format_fixed 2 (now 5 - now 0) +:+ "s";
             retrieved_documents := [] |},
       w', ticked 7 sys) /\
    Context.conversation_history (context_manager w')
    = Context.conversation_history (context_manager w)
      ++ [{| Context.role := "user"; Context.content := user_query;
             Context.timestamp := now 2; Context.metadata := None |}] /\
    Context.retrieved_documents (context_manager w')
    = Context.retrieved_documents (context_manager w) /\
    Context.current_query (context_manager w') = Some user_query /\
    Metrics.metrics_history (metrics_tracker w')
    = Metrics.metrics_history (metrics_tracker w)
      ++ [minimal_metrics (now 6) 0.0 (now 5 - now 0) user_query
                          (_fallback_response user_query)] /\
    Metrics.current_timers (metrics_tracker w')
    = delete "total_response"
        (<["document_retrieval" := now 4]>
           (delete "query_processing"
              (<["query_processing" := now 1]>
                 (<["total_response" := now 0]>
                    (Metrics.current_timers (metrics_tracker w)))))).
Proof.
  intros Hq Hne He now. eexists. split.
  - enter_chat Hq Hne. rewrite He. unfold fallback.
    erewrite step_stop by timer_lookup.
    rewrite step_time, step_record. reflexivity.
  - by repeat split.
Qed.

(** The request whose retrieval returns no document. *)
Lemma chat_run_empty retriever (query : gmap string string) user_query w sys :
  query !! "message" = Some user_query -> user_query <> "" ->
  retrieve retriever user_query TOP_K_RESULTS None = Ok [] ->
  let now i := clock sys (i + ticks sys) in
  exists w',
    chat retriever query w sys
    = (Ok {| query := user_query;
             response := _fallback_response user_query;
             confidence := 75.0;
             documents_retrieved := 0;
             response_time := format_fixed 2 (now 6 - now 0) +:+ "s";
             retrieved_documents := [] |},
       w', ticked 8 sys) /\
    Context.conversation_history (context_manager w')
    = Context.conversation_history (context_manager w)
      ++ [{| Context.role := "user"; Context.content := user_query;
             Context.timestamp := now 2; Context.metadata := None |}] /\
    Context.retrieved_documents (context_manager w')
    = Context.retrieved_documents (context_manager w) /\
    Context.current_query (context_manager w') = Some user_query /\
    Metrics.metrics_history (metrics_tracker w')
    = Metrics.metrics_history (metrics_tracker w)
      ++ [minimal_metrics (now 7) (now 5 - now 4) (now 6 - now 0) user_query
                          (_fallback_response user_query)] /\
    Metrics.current_timers (metrics_tracker w')
    = delete "total_response"
        (delete "document_retrieval"
           (<["document_retrieval" := now 4]>
              (delete "query_processing"
                 (<["query_processing" := now 1]>
                    (<["total_response" := now 0]>
                       (Metrics.current_timers (metrics_tracker w))))))).
Proof.
  intros Hq Hne He now. eexists. split.
  - enter_chat Hq Hne. rewrite He.
    erewrite step_stop by timer_lookup.
    rewrite decide_True by done. unfold fallback.
    erewrite step_stop by timer_lookup.
    rewrite step_time, step_record. reflexivity.
  - by repeat split.
Qed.

(** The request whose retrieval returns documents. *)
Lemma chat_run_documents retriever (query : gmap string string) user_query w sys docs :
  query !! "message" = Some user_query -> user_query <> "" ->
  retrieve retriever user_query TOP_K_RESULTS None = Ok docs -> docs <> [] ->
  let now i := clock sys (i + ticks sys) in
  exists answer score w',
    _generate_response user_query docs = Ok answer /\
    _calculate_confidence docs = Ok score /\
    chat retriever query w sys
    = (Ok {| query := user_query;
             response := answer;
             confidence := score;
             documents_retrieved := length docs;
             response_time := format_fixed 2 (now 8 - now 0) +:+ "s";
             retrieved_documents := summary <$> slice_to docs 3 |},
       w', ticked 11 sys) /\
    Context.conversation_history (context_manager w')
    = Context.conversation_history (context_manager w)
      ++ [{| Context.role := "user"; Context.content := user_query;
             Context.timestamp := now 2; Context.metadata := None |};
          {| Context.role := "assistant"; Context.content := answer;
             Context.timestamp := now 9; Context.metadata := None |}] /\
    Context.retrieved_documents (context_manager w')
    = Context.retrieved_documents (context_manager w)
      ++ (Context.of_dict <$> (as_dict <$> docs)) /\
    Context.current_query (context_manager w') = Some user_query /\
    Metrics.metrics_history (metrics_tracker w')
    = Metrics.metrics_history (metrics_tracker w)
      ++ [{| Metrics.timestamp := now 10;
             Metrics.query_processing_time := now 3 - now 1;
             Metrics.document_retrieval_time := now 5 - now 4;
             Metrics.response_generation_time := now 7 - now 6;
             Metrics.total_response_time := now 8 - now 0;
             Metrics.documents_retrieved := length docs;
             Metrics.documents_used := 3 `min` length docs;
             Metrics.context_length :=
               String.length user_query +
               foldl plus 0 ((fun doc => String.length (res_content doc)) <$> docs);
             Metrics.query_length := String.length user_query;
             Metrics.response_length := String.length answer;
             Metrics.similarity_scores := res_score <$> docs;
             Metrics.metadata := None |}] /\
    Metrics.current_timers (metrics_tracker w')
    = delete "total_response"
        (delete "response_generation"
           (<["response_generation" := now 6]>
              (delete "document_retrieval"
                 (<["document_retrieval" := now 4]>
                    (delete "query_processing"
                       (<["query_processing" := now 1]>
                          (<["total_response" := now 0]>
                             (Metrics.current_timers (metrics_tracker w))))))))).
Proof.
  intros Hq Hne He Hdocs now.
  destruct (generate_response_ok user_query docs Hdocs) as [answer Hanswer].
  destruct (calculate_confidence_returns docs) as [score Hscore].
  exists answer, score. eexists. split; [done|]. split; [done|]. split.
  - enter_chat Hq Hne. rewrite He.
    erewrite step_stop by timer_lookup.
    rewrite decide_False by done.
    rewrite step_start.
    erewrite step_context by apply add_retrieved_documents_run.
    rewrite Hanswer, step_lift.
    erewrite step_stop by timer_lookup.
    erewrite step_stop by timer_lookup.
    erewrite step_context by reflexivity.
    rewrite step_time, step_record, Hscore, step_lift. reflexivity.
  - repeat split. simpl. by rewrite <- app_assoc.
Qed.
End chat_runs.

(** ** What a request of [chat] does *)

Section chat_more.
Import Retriever App.
Implicit Types (w : World) (sys : Sys) (retriever : HybridRetriever).

(** X20.  A request without a message, or with an empty one, is answered
    with status 500: the exception of status 400 is raised inside the
    [try] whose handler turns every exception into status 500.  No timer
    is started and nothing is stored. *)
Theorem chat_without_message_is_500 retriever (query : gmap string string) w sys :
  default "" (query !! "message") = "" ->
  chat retriever query w sys
  = (Raise (HTTPException 500 "Error processing chat query: 400: Message is required"),
     w, sys).
Proof.
  intros Hq. unfold chat. cbv zeta. rewrite Hq.
  by rewrite decide_True.
Qed.

Lemma chat_without_message_is_500_witness :
  chat (index_answering (Ok reply_ab)) ∅ fresh noon
  = (Raise (HTTPException 500 "Error processing chat query: 400: Message is required"),
     fresh, noon).
Proof.
  apply (chat_without_message_is_500 (index_answering (Ok reply_ab)) ∅ fresh noon).
  reflexivity.
Defined.

Lemma slice_to_3 {A} (l : list A) : slice_to l 3 = take 3 l.
Proof. reflexivity. Qed.

Lemma slice_to_3_length {A} (l : list A) : length (slice_to l 3) = 3 `min` length l.
Proof. by rewrite slice_to_3, length_take. Qed.

(** X21.  A request with a message is always answered, whatever the
    retriever does: [chat] returns a response to that message with at most
    3 documents, never more than it counts in [documents_retrieved], and
    logs no timer warning, each timer that it stops being one that it
    started. *)
Theorem chat_always_answers retriever (query : gmap string string) user_query w sys :
  query !! "message" = Some user_query -> user_query <> "" ->
  exists r,
    value_of (chat retriever query w sys) = Ok r /\
    App.query r = user_query /\
    length (retrieved_documents r) <= 3 /\
    length (retrieved_documents r) <= documents_retrieved r /\
    metrics_log (sys_of (chat retriever query w sys)) = metrics_log sys.
Proof.
  intros Hq Hne.
  destruct (retrieve retriever user_query TOP_K_RESULTS None) as [[|doc docs]|e] eqn:Hr.
  - destruct (chat_run_empty retriever query user_query w sys Hq Hne Hr) as (w' & -> & _).
    eexists. split; [reflexivity|]. simpl. repeat split; lia.
  - destruct (chat_run_documents retriever query user_query w sys _ Hq Hne Hr)
      as (answer & score & w' & _ & _ & -> & _); [done|].
    eexists. split; [reflexivity|].
    cbn [App.query retrieved_documents documents_retrieved].
    rewrite length_fmap, slice_to_3_length.
    repeat split; lia.
  - destruct (chat_run_raise retriever query user_query w sys e Hq Hne Hr) as (w' & -> & _).
    eexists. split; [reflexivity|]. simpl. repeat split; lia.
Qed.

Lemma chat_always_answers_witness :
  exists r,
    value_of (chat (index_answering (Ok reply_abc)) hotel_request fresh noon) = Ok r /\
    App.query r = "any hotel?".
Proof.
  destruct (chat_always_answers (index_answering (Ok reply_abc)) hotel_request
                                "any hotel?" fresh noon)
    as (r & Hr & Hquery & _); [vm_compute; reflexivity | discriminate |].
  by exists r.
Defined.

Lemma string_length_app (s1 s2 : string) :
  String.length (s1 +:+ s2) = String.length s1 + String.length s2.
Proof. induction s1 as [|c s1 IH]; simpl; [done | by rewrite IH]. Qed.

Lemma str_take_length (n : nat) (s : string) : String.length (str_take n s) <= n.
Proof.
  unfold str_take. revert s. induction n as [|n IH]; intros [|c s]; simpl; try lia.
  specialize (IH s). lia.
Qed.

Lemma excerpt_length n (s : string) : String.length (excerpt "" n s) <= n + 3.
Proof.
  unfold excerpt. case_decide; [|lia].
  rewrite !string_length_app. pose proof (str_take_length n s). simpl. lia.
Qed.

(** X22.  When retrieval returns documents, the response counts them all
    in [documents_retrieved], lists the first 3 in their order with their
    id, score and metadata and a content of at most 203 characters, and
    carries the answer of [_generate_response] and the confidence of
    [_calculate_confidence] for all the documents. *)
Theorem chat_with_documents retriever (query : gmap string string) user_query w sys docs :
  query !! "message" = Some user_query -> user_query <> "" ->
  retrieve retriever user_query TOP_K_RESULTS None = Ok docs -> docs <> [] ->
  exists r,
    value_of (chat retriever query w sys) = Ok r /\
    documents_retrieved r = length docs /\
    _generate_response user_query docs = Ok (response r) /\
    _calculate_confidence docs = Ok (confidence r) /\
    ds_id <$> retrieved_documents r = res_id <$> take 3 docs /\
    ds_score <$> retrieved_documents r = res_score <$> take 3 docs /\
    ds_metadata <$> retrieved_documents r = res_metadata <$> take 3 docs /\
    Forall (fun d => String.length (ds_content d) <= 203) (retrieved_documents r).
Proof.
  intros Hq Hne Hr Hdocs.
  destruct (chat_run_documents retriever query user_query w sys _ Hq Hne Hr Hdocs)
    as (answer & score & w' & Hanswer & Hscore & -> & _).
  eexists. split; [reflexivity|].
  cbn [retrieved_documents documents_retrieved response confidence].
  rewrite slice_to_3, <- !list_fmap_compose.
  do 6 (split; [done|]).
  apply Forall_fmap, Forall_forall. intros doc _. apply (excerpt_length 200).
Qed.

Lemma chat_with_documents_witness :
  exists r,
    value_of (chat (index_answering (Ok reply_abc)) hotel_request fresh noon) = Ok r /\
    documents_retrieved r = 3 /\
    ds_id <$> retrieved_documents r = ["c"; "b"; "a"].
Proof.
  destruct (chat_with_documents (index_answering (Ok reply_abc)) hotel_request
              "any hotel?" fresh noon
              (slice_to (sort_desc res_score (candidates reply_abc TOP_K_RESULTS))
                        TOP_K_RESULTS))
    as (r & Hr & Hcount & _ & _ & Hids & _);
    [vm_compute; reflexivity | discriminate | reflexivity | discriminate |].
  exists r. split; [exact Hr|]. split; [exact Hcount | exact Hids].
Defined.

(** X23.  What a request leaves in the conversation context: the message
    becomes the current query and a user turn in every case; an assistant
    turn and the retrieved documents are added only when retrieval returned
    documents.  The answer of a fallback is not recorded as a turn. *)
Theorem chat_conversation retriever (query : gmap string string) user_query w sys :
  query !! "message" = Some user_query -> user_query <> "" ->
  let before := context_manager w in
  let after := context_manager (state_of (chat retriever query w sys)) in
  Context.current_query after = Some user_query /\
  match retrieve retriever user_query TOP_K_RESULTS None with
  | Ok (doc :: docs) =>
      exists answer,
        _generate_response user_query (doc :: docs) = Ok answer /\
        turn <$> Context.conversation_history after
        = (turn <$> Context.conversation_history before)
          ++ [("user", user_query); ("assistant", answer)] /\
        Context.retrieved_documents after
        = Context.retrieved_documents before
          ++ ((fun r => {| Context.doc_id := res_id r;
                           Context.doc_content := res_content r;
                           Context.doc_score := res_score r;
                           Context.doc_metadata := res_metadata r |}) <$> doc :: docs)
  | _ =>
      turn <$> Context.conversation_history after
      = (turn <$> Context.conversation_history before) ++ [("user", user_query)] /\
      Context.retrieved_documents after = Context.retrieved_documents before
  end.
Proof.
  intros Hq Hne before after. subst before after.
  destruct (retrieve retriever user_query TOP_K_RESULTS None) as [[|doc docs]|e] eqn:Hr.
  - destruct (chat_run_empty retriever query user_query w sys Hq Hne Hr)
      as (w' & -> & Hh & Hd & Hcq & _).
    unfold state_of. simpl. by rewrite Hh, Hd, fmap_app.
  - destruct (chat_run_documents retriever query user_query w sys _ Hq Hne Hr)
      as (answer & score & w' & Hanswer & _ & -> & Hh & Hd & Hcq & _); [done|].
    unfold state_of. cbn [fst snd]. split; [done|]. exists answer.
    rewrite Hh, Hd, fmap_app, <- list_fmap_compose. by repeat split.
  - destruct (chat_run_raise retriever query user_query w sys e Hq Hne Hr)
      as (w' & -> & Hh & Hd & Hcq & _).
    unfold state_of. simpl. by rewrite Hh, Hd, fmap_app.
Qed.

Lemma chat_conversation_witness :
  turn <$> Context.conversation_history
             (context_manager
                (state_of (chat (index_answering (Ok reply_none)) hotel_request fresh noon)))
  = (turn <$> Context.conversation_history (context_manager fresh))
    ++ [("user", "any hotel?")].
Proof.
  destruct (chat_conversation (index_answering (Ok reply_none)) hotel_request
                              "any hotel?" fresh noon)
    as (_ & Hturns & _); [vm_compute; reflexivity | discriminate |].
  exact Hturns.
Defined.
End chat_more.

Section chat_bookkeeping.
Import Retriever App.
Implicit Types (w : World) (sys : Sys) (retriever : HybridRetriever).

(** X24.  Every answered request adds exactly one record to the metrics
    history.  The record holds the length of the message, the number of
    documents retrieved (0 after a failure), the number used, at most 3,
    and their scores; after a fallback the times of query processing and
    of response generation are recorded as 0.0. *)
Theorem chat_records_one_request retriever (query : gmap string string) user_query w sys :
  query !! "message" = Some user_query -> user_query <> "" ->
  let retrieved := match retrieve retriever user_query TOP_K_RESULTS None with
                   | Ok docs => docs
                   | Raise _ => []
                   end in
  exists m,
    Metrics.metrics_history (metrics_tracker (state_of (chat retriever query w sys)))
    = Metrics.metrics_history (metrics_tracker w) ++ [m] /\
    Metrics.query_length m = String.length user_query /\
    Metrics.documents_retrieved m = length retrieved /\
    Metrics.documents_used m = 3 `min` length retrieved /\
    Metrics.similarity_scores m = res_score <$> retrieved /\
    (retrieved = [] ->
     Metrics.query_processing_time m = 0.0%Q /\
     Metrics.response_generation_time m = 0.0%Q).
Proof.
  intros Hq Hne retrieved. subst retrieved.
  destruct (retrieve retriever user_query TOP_K_RESULTS None) as [[|doc docs]|e] eqn:Hr.
  - destruct (chat_run_empty retriever query user_query w sys Hq Hne Hr)
      as (w' & -> & _ & _ & _ & Hm & _).
    eexists. split; [exact Hm|]. by repeat split.
  - destruct (chat_run_documents retriever query user_query w sys _ Hq Hne Hr)
      as (answer & score & w' & _ & _ & -> & _ & _ & _ & Hm & _); [done|].
    eexists. split; [exact Hm|]. by repeat split.
  - destruct (chat_run_raise retriever query user_query w sys e Hq Hne Hr)
      as (w' & -> & _ & _ & _ & Hm & _).
    eexists. split; [exact Hm|]. by repeat split.
Qed.

Lemma chat_records_one_request_witness :
  exists m,
    Metrics.metrics_history
      (metrics_tracker
         (state_of (chat (index_answering (Ok reply_abc)) hotel_request fresh noon)))
    = Metrics.metrics_history (metrics_tracker fresh) ++ [m] /\
    Metrics.documents_retrieved m = 3.
Proof.
  destruct (chat_records_one_request (index_answering (Ok reply_abc)) hotel_request
                                     "any hotel?" fresh noon)
    as (m & Hm & _ & Hcount & _); [vm_compute; reflexivity | discriminate |].
  exists m. split; [exact Hm | exact Hcount].
Defined.

Lemma not_chat_timer name :
  name ∉ chat_timers ->
  name <> "total_response" /\ name <> "query_processing" /\
  name <> "document_retrieval" /\ name <> "response_generation".
Proof.
  unfold chat_timers. rewrite !not_elem_of_cons. tauto.
Qed.

(** X25.  The timers after a request.  Timers of other names are left as
    they were, and [total_response] and [query_processing] are not
    running.  When retrieval returned, [document_retrieval] is not running
    either (nor [response_generation], when there were documents); when
    retrieval raised, [document_retrieval] is still running, with the time
    at which retrieval began. *)
Theorem chat_timers_after retriever (query : gmap string string) user_query w sys :
  query !! "message" = Some user_query -> user_query <> "" ->
  let timers := Metrics.current_timers (metrics_tracker w) in
  let timers' :=
    Metrics.current_timers (metrics_tracker (state_of (chat retriever query w sys))) in
  (forall name, name ∉ chat_timers -> timers' !! name = timers !! name) /\
  timers' !! "total_response" = None /\
  timers' !! "query_processing" = None /\
  match retrieve retriever user_query TOP_K_RESULTS None with
  | Ok [] =>
      timers' !! "document_retrieval" = None /\
      timers' !! "response_generation" = timers !! "response_generation"
  | Ok (_ :: _) =>
      timers' !! "document_retrieval" = None /\ timers' !! "response_generation" = None
  | Raise _ =>
      timers' !! "document_retrieval" = Some (clock sys (4 + ticks sys)) /\
      timers' !! "response_generation" = timers !! "response_generation"
  end.
Proof.
  intros Hq Hne timers timers'. subst timers timers'.
  destruct (retrieve retriever user_query TOP_K_RESULTS None) as [[|doc docs]|e] eqn:Hr.
  - destruct (chat_run_empty retriever query user_query w sys Hq Hne Hr)
      as (w' & -> & _ & _ & _ & _ & Ht).
    unfold state_of. cbn [fst snd]. rewrite Ht. split.
    + intros name (? & ? & ? & ?)%not_chat_timer. by simplify_map_eq.
    + repeat split; by simplify_map_eq.
  - destruct (chat_run_documents retriever query user_query w sys _ Hq Hne Hr)
      as (answer & score & w' & _ & _ & -> & _ & _ & _ & _ & Ht); [done|].
    unfold state_of. cbn [fst snd]. rewrite Ht. split.
    + intros name (? & ? & ? & ?)%not_chat_timer. by simplify_map_eq.
    + repeat split; by simplify_map_eq.
  - destruct (chat_run_raise retriever query user_query w sys e Hq Hne Hr)
      as (w' & -> & _ & _ & _ & _ & Ht).
    unfold state_of. cbn [fst snd]. rewrite Ht. split.
    + intros name (? & ? & ? & ?)%not_chat_timer. by simplify_map_eq.
    + repeat split; by simplify_map_eq.
Qed.
End chat_bookkeeping.

Section chat_timers_witness.
Import Retriever App.

Lemma chat_timers_after_witness :
  Metrics.current_timers
    (metrics_tracker
       (state_of (chat (index_answering (Raise (StoreError "index unavailable")))
                       hotel_request fresh noon)))
  !! "document_retrieval" = Some 4%Q.
Proof.
  destruct (chat_timers_after (index_answering (Raise (StoreError "index unavailable")))
                              hotel_request "any hotel?" fresh noon)
    as (_ & _ & _ & Hleft & _); [vm_compute; reflexivity | discriminate |].
  exact Hleft.
Defined.
End chat_timers_witness.

(** ** Answers and confidence *)

Section answers.
Import App.

Ltac answer_with lead limit :=
  exists lead, limit; do 3 (split; [done|]);
  split; [first [by left | by right]|]; split; [reflexivity|];
  intros Hshort; unfold excerpt; by rewrite decide_False by lia.

(** X26.  [_generate_response] never raises.  Without documents it returns
    the fixed apology.  Otherwise it takes the document of greatest score
    (the first of them): a content longer than the limit (300 characters
    for a general question, 200 for the three topics) is cut to the limit
    after a lead-in and followed by [...]; a content within the limit is
    returned as it is, without the lead-in. *)
Theorem generate_response_shape user_query documents :
  (documents = [] ->
   _generate_response user_query documents
   = Ok "I don't have specific information about that topic in my knowledge base. Could you provide more details or ask about something else related to travel?") /\
  (documents <> [] ->
   exists best lead limit,
     max_by res_score documents = Ok best /\
     best ∈ documents /\
     (forall r, r ∈ documents -> (res_score r <= res_score best)%Q) /\
     (limit = 200 \/ limit = 300) /\
     _generate_response user_query documents
     = Ok (if decide (limit < String.length (res_content best))
           then lead +:+ str_take limit (res_content best) +:+ "..."
           else res_content best) /\
     (String.length (res_content best) <= 200 ->
      _generate_response user_query documents = Ok (res_content best))).
Proof.
  split.
  - intros ->. reflexivity.
  - intros Hne. destruct (max_by_spec res_score documents Hne) as (best & Hbest & Hin & Hmax).
    unfold _generate_response. rewrite decide_False by done. rewrite Hbest. simpl.
    exists best.
    destruct (contains "beach" _ || contains "ocean" _);
      [answer_with "Based on my travel knowledge, beaches are wonderful destinations for relaxation. " 200|].
    destruct (contains "hotel" _ || contains "accommodation" _);
      [answer_with "For accommodations, I recommend considering location and amenities. " 200|].
    destruct (contains "food" _ || contains "restaurant" _);
      [answer_with "Food is an essential part of travel experience. " 200|].
    answer_with "Based on my travel knowledge: " 300.
Qed.

Lemma generate_response_shape_witness :
  _generate_response "any hotel?" [scored 0.9%Q] = Ok "".
Proof.
  destruct (proj2 (generate_response_shape "any hotel?" [scored 0.9%Q]))
    as (best & lead & limit & Hbest & _ & _ & _ & _ & Hshort); [discriminate|].
  injection Hbest as <-. apply Hshort. simpl. lia.
Defined.

Lemma round_100 : (round 100 2 <= 100)%Q.
Proof. discriminate. Qed.

Lemma round_0 : (0 <= round 0 2)%Q /\ (round 0 2 <= 0)%Q.
Proof. split; discriminate. Qed.

(** X27.  The confidence never exceeds 100, and it is not negative when
    the list is empty or some score is not negative; so it lies in
    [0, 100] for scores in [0, 1].  When every score is negative, as
    distances above 1 give, the confidence is not positive: a best score of
    -0.5 yields -50. *)
Theorem confidence_bounds documents c :
  _calculate_confidence documents = Ok c ->
  (c <= 100)%Q /\
  ((documents = [] \/ exists r, r ∈ documents /\ (0 <= res_score r)%Q) -> (0 <= c)%Q) /\
  ((forall r, r ∈ documents -> (res_score r < 0)%Q) -> (c <= 0)%Q) /\
  _calculate_confidence [scored (-0.5)%Q] = Ok (-50.00)%Q.
Proof.
  intros Hc. destruct documents as [|r0 documents].
  { injection Hc as <-. repeat split; discriminate. }
  destruct (max_by_spec res_score (r0 :: documents)) as (best & _ & Hin & Hmax); [done|].
  assert (is_max_score (r0 :: documents) (res_score best)) as Hbest by (split; eauto).
  rewrite (calculate_confidence_ok _ _ Hbest) in Hc. injection Hc as <-.
  split; [|split; [|split; [|reflexivity]]].
  - eapply Qle_trans; [apply round_mono, Q.le_min_l | apply round_100].
  - intros [?|(r & Hr & Hpos)]; [done|].
    eapply Qle_trans; [apply round_0|].
    apply round_mono. apply Q.min_glb; [discriminate|].
    assert (0 <= res_score best)%Q by (eapply Qle_trans; [exact Hpos | by apply Hmax]).
    apply Qmult_le_0_compat; [discriminate | done].
  - intros Hneg.
    eapply Qle_trans; [|apply round_0]. apply round_mono.
    eapply Qle_trans; [apply Q.le_min_r|].
    specialize (Hneg best Hin).
    assert (100 * res_score best <= 100 * 0)%Q as Hle.
    { apply Qmult_le_l; [reflexivity | by apply Qlt_le_weak]. }
    by rewrite Qmult_0_r in Hle.
Qed.

Lemma confidence_bounds_witness :
  (round (Qmin 100 (100 * 0.9)) 2 <= 100)%Q /\ (0 <= round (Qmin 100 (100 * 0.9)) 2)%Q.
Proof.
  destruct (confidence_bounds [scored 0.9%Q] (round (Qmin 100 (100 * 0.9)) 2))
    as (Hle & Hge & _); [reflexivity|].
  split; [exact Hle|]. apply Hge. right. exists (scored 0.9%Q).
  split; [apply list_elem_of_singleton; reflexivity | discriminate].
Defined.
End answers.

(** ** Uploads *)

Section uploads.
Import App.
Implicit Types (w : World) (sys : Sys) (env : UploadEnv).

(** X28.  The outcomes of [upload_document].  Without a file name, and when
    saving, processing or indexing raises, the answer is status 500 with
    the text of the exception (also for the missing name, raised with
    status 400), and the timer [document_processing] is left running.
    When every step succeeds the answer counts the chunks that the
    processor returned and the timer is stopped.  In no case is the
    conversation context or the metrics history changed. *)
Theorem upload_document_outcomes env w sys :
  let started := with_timers <["document_processing" := clock sys (ticks sys)]> w in
  let failed e := (Raise (HTTPException 500 ("Error processing document: " +:+ exn_str e)),
                   started, tick sys) in
  upload_document env None w sys = failed (HTTPException 400 "Filename is required") /\
  (forall name e,
     save_upload env (upload_path env name) = Raise e ->
     upload_document env (Some name) w sys = failed e) /\
  (forall name e,
     save_upload env (upload_path env name) = Ok tt ->
     process_document env (upload_path env name) = Raise e ->
     upload_document env (Some name) w sys = failed e) /\
  (forall name documents e,
     save_upload env (upload_path env name) = Ok tt ->
     process_document env (upload_path env name) = Ok documents ->
     add_documents env ((fun doc => (page_content doc, doc_metadata doc)) <$> documents)
     = Raise e ->
     upload_document env (Some name) w sys = failed e) /\
  (forall name documents ids,
     save_upload env (upload_path env name) = Ok tt ->
     process_document env (upload_path env name) = Ok documents ->
     add_documents env ((fun doc => (page_content doc, doc_metadata doc)) <$> documents)
     = Ok ids ->
     upload_document env (Some name) w sys
     = (Ok {| filename := name;
              status := "success";
              chunks_created := length documents;
              processing_time :=
                format_fixed 2 (clock sys (1 + ticks sys) - clock sys (ticks sys)) +:+ "s" |},
        with_timers (delete "document_processing") started, ticked 2 sys)) /\
  context_manager started = context_manager w /\
  Metrics.metrics_history (metrics_tracker started)
  = Metrics.metrics_history (metrics_tracker w) /\
  Metrics.current_timers (metrics_tracker started) !! "document_processing"
  = Some (clock sys (ticks sys)).
Proof.
  intros started failed. subst started failed.
  split; [reflexivity|]. split; [|split; [|split; [|split]]].
  - intros name e Hsave. unfold upload_document, try_except.
    rewrite step_start. unfold mbind, eff_bind, lift. by rewrite Hsave.
  - intros name e Hsave Hprocess. unfold upload_document, try_except.
    rewrite step_start. cbv zeta. rewrite Hsave, step_lift.
    unfold mbind, eff_bind, lift. by rewrite Hprocess.
  - intros name documents e Hsave Hprocess Hadd. unfold upload_document, try_except.
    rewrite step_start. cbv zeta. rewrite Hsave, step_lift, Hprocess, step_lift.
    unfold mbind, eff_bind, lift. by rewrite Hadd.
  - intros name documents ids Hsave Hprocess Hadd. unfold upload_document, try_except.
    rewrite step_start. cbv zeta.
    rewrite Hsave, step_lift, Hprocess, step_lift, Hadd, step_lift.
    erewrite step_stop by timer_lookup. reflexivity.
  - repeat split. simpl. apply lookup_insert_eq.
Qed.

Lemma upload_document_outcomes_witness :
  exists answer,
    value_of (upload_document
                (upload_of [{| page_content := "Jammu is a city"; doc_metadata := ∅ |}])
                (Some "guide.pdf") fresh noon) = Ok answer /\
    chunks_created answer = 1.
Proof.
  destruct (upload_document_outcomes
              (upload_of [{| page_content := "Jammu is a city"; doc_metadata := ∅ |}])
              fresh noon) as (_ & _ & _ & _ & Hsuccess & _).
  eexists. split.
  - rewrite (Hsuccess "guide.pdf"
               [{| page_content := "Jammu is a city"; doc_metadata := ∅ |}] ["id"]);
      reflexivity.
  - reflexivity.
Defined.
End uploads.
